(** * Edge Deployment operator: cluster provisioning and readiness

    A shallow embedding of the [EdgeDeploy] class (the operator's HTTP
    handlers) and proofs about its provisioning saga, its readiness scan and
    its secret-sealing delegation.

    The handlers are asynchronous JavaScript methods that talk to external
    services.  They are embedded in a small monad that
    - reads the [EdgeDeploy] object ([this]),
    - reads the external state reached so far,
    - returns a value or a thrown exception, and
    - emits the list of collaborator calls it made, in program order. *)

From Stdlib Require Import String Ascii List ZArith Bool Lia DecimalString.
Import ListNotations.
Local Open Scope list_scope.
Local Open Scope string_scope.
Set Warnings "-register-all".

(** ** JavaScript values *)

Module JS.

(** Manifest documents, request bodies and configuration entries are JSON-like
    data.  Numbers are integers here: the program never does arithmetic on a
    document. Objects keep their properties in insertion order. *)
Inductive jsval : Type :=
| JUndefined
| JNull
| JBool (b : bool)
| JNum (n : Z)
| JStr (s : string)
| JArr (items : list jsval)
| JObj (props : list (string * jsval)).

(** What a [throw] or a rejected promise carries. *)
Inductive exn : Type :=
| TypeError (msg : string)
| Thrown (v : jsval).

Inductive result (A : Type) : Type :=
| Ok (a : A)
| Err (e : exn).
Arguments Ok {A} a.
Arguments Err {A} e.

Definition is_ok {A} (r : result A) : bool :=
  match r with Ok _ => true | Err _ => false end.

(** [v == null]: true of [undefined] and [null] only. *)
Definition nullish (v : jsval) : bool :=
  match v with
  | JUndefined | JNull => true
  | _ => false
  end.

(** ToBoolean, as used by [!v] and [if (v)]. *)
Definition truthy (v : jsval) : bool :=
  match v with
  | JUndefined | JNull => false
  | JBool b => b
  | JNum n => negb (n =? 0)%Z
  | JStr s => negb (s =? "")
  | JArr _ | JObj _ => true
  end.

Fixpoint lookup (k : string) (props : list (string * jsval)) : option jsval :=
  match props with
  | [] => None
  | (k', v) :: rest => if k' =? k then Some v else lookup k rest
  end.

Definition has_key (k : string) (props : list (string * jsval)) : bool :=
  existsb (fun kv => fst kv =? k) props.

(** [v.k].  Reading a property of [undefined] or [null] throws; an object
    answers with the property or [undefined]; strings and arrays answer their
    [length] and otherwise [undefined] (the program reads no index and no
    prototype method). *)
Definition get_prop (v : jsval) (k : string) : result jsval :=
  match v with
  | JUndefined => Err (TypeError ("Cannot read properties of undefined (reading '" ++ k ++ "')"))
  | JNull => Err (TypeError ("Cannot read properties of null (reading '" ++ k ++ "')"))
  | JObj props =>
      Ok match lookup k props with Some x => x | None => JUndefined end
  | JStr s => Ok (if k =? "length" then JNum (Z.of_nat (String.length s)) else JUndefined)
  | JArr l => Ok (if k =? "length" then JNum (Z.of_nat (List.length l)) else JUndefined)
  | JBool _ | JNum _ => Ok JUndefined
  end.

(** [v?.k]: [undefined] when [v] is nullish, never throws. *)
Definition opt_prop (v : jsval) (k : string) : jsval :=
  match get_prop v k with
  | Ok x => x
  | Err _ => JUndefined
  end.

Definition string_of_nat (n : nat) : string :=
  NilZero.string_of_uint (Nat.to_uint n).

Definition string_of_Z (n : Z) : string :=
  NilZero.string_of_int (Z.to_int n).

(** [k in v].  The right operand must be an object; arrays are objects whose
    keys are their indices and [length].  Properties inherited from
    [Object.prototype] are left out: the program only tests [bearerToken],
    [username], [password] and [dryrun]. *)
Definition js_in (k : string) (v : jsval) : result bool :=
  match v with
  | JObj props => Ok (has_key k props)
  | JArr l =>
      Ok ((k =? "length")
          || existsb (fun i => string_of_nat i =? k) (seq 0 (List.length l)))
  | _ => Err (TypeError ("Cannot use 'in' operator to search for '" ++ k ++ "'"))
  end.

(** ToString, as a template literal applies it. *)
Fixpoint to_string (v : jsval) : string :=
  match v with
  | JUndefined => "undefined"
  | JNull => "null"
  | JBool true => "true"
  | JBool false => "false"
  | JNum n => string_of_Z n
  | JStr s => s
  | JArr l =>
      (fix join (l : list jsval) : string :=
         match l with
         | [] => ""
         | [x] => if nullish x then "" else to_string x
         | x :: rest => (if nullish x then "" else to_string x) ++ "," ++ join rest
         end) l
  | JObj _ => "[object Object]"
  end.

(** [s.replace(c, r)] with a one-character string pattern: only the first
    occurrence is replaced. *)
Fixpoint replace_first (c : ascii) (r : string) (s : string) : string :=
  match s with
  | EmptyString => EmptyString
  | String a rest =>
      if Ascii.eqb a c then r ++ rest else String a (replace_first c r rest)
  end.

(** [source.replace("/", ".")]: the receiver must have a [replace] method,
    which among these values only strings do. *)
Definition js_replace_slash (source : jsval) : result string :=
  match source with
  | JStr s => Ok (replace_first "/"%char "." s)
  | JUndefined => Err (TypeError "Cannot read properties of undefined (reading 'replace')")
  | JNull => Err (TypeError "Cannot read properties of null (reading 'replace')")
  | _ => Err (TypeError "source.replace is not a function")
  end.

Fixpoint chars (s : string) : list jsval :=
  match s with
  | EmptyString => []
  | String a rest => JStr (String a EmptyString) :: chars rest
  end.

(** What [for (const x of v)] iterates over. *)
Definition iterate (v : jsval) : result (list jsval) :=
  match v with
  | JArr l => Ok l
  | JStr s => Ok (chars s)
  | _ => Err (TypeError "spec.sources is not iterable")
  end.

(** Writing a property in an object literal: a repeated key keeps its place
    and takes the later value. *)
Fixpoint obj_set (k : string) (v : jsval) (props : list (string * jsval))
  : list (string * jsval) :=
  match props with
  | [] => [(k, v)]
  | (k', v') :: rest =>
      if k' =? k then (k', v) :: rest else (k', v') :: obj_set k v rest
  end.

End JS.
Export JS.

(** ** The outside world *)

Module Env.

(** A working copy handed out by [Checkout.clone] or [Checkout.init]. *)
Definition checkout := nat.

(** The byte streams the program passes on without reading them. *)
Inductive content : Type :=
| RequestBody (raw : string)       (* the request itself, [content: req] *)
| ReadableFrom (text : string).    (* [stream.Readable.from(text)] *)

(** The options object handed to the secret sealer: its plain properties and
    its [content] stream, if it has one. *)
Record sealer_opts : Type := {
  opt_props : list (string * jsval);
  opt_content : option content
}.

(** One call on a collaborator (or on the debug log).  A log line is recorded
    by its format string. *)
Inductive event : Type :=
| EvLog (fmt : string)
| EvRegisterServiceUrl (service url : string)
| EvCheckAcl (principal : jsval) (perm : string) (target : jsval) (wild : bool)
| EvFetch (service method url : string)
| EvCreateObject (class : string)
| EvPutConfig (app : string) (obj value : jsval)
| EvGetConfig (app : string) (obj : jsval)
| EvServiceUrl (service : string)
| EvCheckoutInit (url : jsval)
| EvCheckoutClone (url : jsval)
| EvWriteFile (co : checkout) (path text : string)
| EvWriteManifest (co : checkout) (doc : jsval)
| EvListManifests (co : checkout) (ns kind : string)
| EvReadManifest (co : checkout) (ns kind : string) (name : jsval)
| EvCommit (co : checkout) (msg : string)
| EvPush (co : checkout)
| EvDispose (co : checkout)
| EvSealSecret (opts : sealer_opts)
| EvDeleteSecret (opts : sealer_opts).

(** The calls that change something outside the process: a repository (local
    working copy of a new repository, or the remote), the registry, the
    directory, or the sealed secrets.  Cloning, listing, reading, disposing,
    asking for permission, and logging do not. *)
Definition is_write (e : event) : bool :=
  match e with
  | EvLog _ | EvCheckAcl _ _ _ _ | EvGetConfig _ _ | EvServiceUrl _
  | EvCheckoutClone _ | EvListManifests _ _ _ | EvReadManifest _ _ _ _
  | EvDispose _ => false
  | EvRegisterServiceUrl _ _ | EvFetch _ _ _ | EvCreateObject _
  | EvPutConfig _ _ _ | EvCheckoutInit _ | EvWriteFile _ _ _
  | EvWriteManifest _ _ | EvCommit _ _ | EvPush _
  | EvSealSecret _ | EvDeleteSecret _ => true
  end.

Definition is_log (e : event) : bool :=
  match e with EvLog _ => true | _ => false end.

(** The external state is what the writes so far have made of it: it is
    represented by the list of those writes, oldest first.  A collaborator's
    answer may depend on it in any way. *)
Definition extstate := list event.

Definition writes (t : list event) : list event := filter is_write t.

(** The state after the calls [t] were made in state [s]. *)
Definition advance (s : extstate) (t : list event) : extstate :=
  fold_left (fun acc e => if is_write e then (acc ++ [e])%list else acc) t s.

(** What [fetch] resolves to: the status and the outcome of [res.json()]. *)
Record fetch_response : Type := {
  fr_status : Z;
  fr_json : result jsval
}.

(** The identifiers imported from [uuids.js] and the utilities library. *)
Record Uuids : Type := {
  Edge_Service_EdgeDeployment : string;
  Edge_Perm_Clusters : string;
  Edge_Perm_Secrets : string;
  Edge_App_Cluster : string;
  Edge_Class_Cluster : string;
  Git_Service_Git : string;
  UUIDs_Null : string;
  UUIDs_App_Info : string
}.

(** The collaborators: the Factory+ service clients ([this.fplus]), the
    [Checkout] class, the [SealedSecrets] object ([this.secrets]), the manifest
    templates and the URL parser.  Each answers in the external state it is
    called in, with a value or with an exception. *)
Record Collab : Type := {
  Auth_check_acl : extstate -> jsval -> string -> jsval -> bool -> result bool;
  Directory_register_service_url : extstate -> string -> string -> result unit;
  Discovery_service_url : extstate -> string -> result jsval;
  ConfigDB_get_config : extstate -> string -> jsval -> result jsval;
  ConfigDB_create_object : extstate -> string -> result jsval;
  ConfigDB_put_config : extstate -> string -> jsval -> jsval -> result unit;
  fplus_fetch : extstate -> string -> string -> string -> result fetch_response;
  Checkout_clone : extstate -> jsval -> result checkout;
  Checkout_init : extstate -> jsval -> result checkout;
  co_list_manifests :
    extstate -> checkout -> string -> string -> result (list (string * string * string));
  co_read_manifest : extstate -> checkout -> string -> string -> jsval -> result jsval;
  co_write_file : extstate -> checkout -> string -> string -> result unit;
  co_write_manifest : extstate -> checkout -> jsval -> result unit;
  co_commit : extstate -> checkout -> string -> result unit;
  co_push : extstate -> checkout -> result unit;
  co_dispose : extstate -> checkout -> result unit;
  secrets_seal_secret : extstate -> sealer_opts -> result Z;
  secrets_delete_secret : extstate -> sealer_opts -> result Z;
  manifests_README : string;
  manifests_git_repo : string -> string -> string -> jsval;
  manifests_flux_kust : string -> string -> string -> jsval;
  new_URL : string -> jsval -> result string
}.

(** The [EdgeDeploy] object, as its constructor leaves it. *)
Record EdgeDeploy : Type := {
  uuids : Uuids;
  fplus : Collab;
  http_url : string;
  group : string
}.

(** *** The handler monad *)

Definition M (A : Type) : Type :=
  EdgeDeploy -> extstate -> result A * list event.

Definition ret {A} (a : A) : M A := fun _ _ => (Ok a, []).

Definition throw {A} (e : exn) : M A := fun _ _ => (Err e, []).

Definition bind {A B} (m : M A) (f : A -> M B) : M B :=
  fun this s =>
    match m this s with
    | (Ok a, t1) =>
        let (r, t2) := f a this (advance s t1) in (r, (t1 ++ t2)%list)
    | (Err e, t1) => (Err e, t1)
    end.

(** A pure step that may throw. *)
Definition lift {A} (r : result A) : M A := fun _ _ => (r, []).

(** A collaborator call: one event, answered in the current state. *)
Definition call {A} (e : event) (answer : Collab -> extstate -> result A) : M A :=
  fun this s => (answer (fplus this) s, [e]).

Definition ask : M EdgeDeploy := fun this _ => (Ok this, []).

Definition log (fmt : string) : M unit := fun _ _ => (Ok tt, [EvLog fmt]).

End Env.
Export Env.

Declare Scope monad_scope.
Delimit Scope monad_scope with monad.
Notation "x <- m ;; k" := (bind m (fun x => k))
  (at level 61, m at next level, right associativity) : monad_scope.
Notation "m ;; k" := (bind m (fun _ => k))
  (at level 61, right associativity) : monad_scope.
Local Open Scope monad_scope.

(** ** The program *)

Module Edge.

Definition FLUX_NS : string := "flux-system".

(** What the handlers see of an HTTP request: the authenticated principal,
    the route parameters, the parsed query, the parsed body, and the raw body
    the request streams. *)
Record request : Type := {
  req_auth : jsval;
  req_params : list (string * string);
  req_query : list (string * jsval);
  req_body : jsval;
  req_raw : string
}.

(** What a handler sends: [res.status(n).end()] or [res.status(n).json(b)]. *)
Record response : Type := {
  res_status : Z;
  res_body : option jsval
}.

Definition status_end (n : Z) : response :=
  {| res_status := n; res_body := None |}.

Definition status_json (n : Z) (b : jsval) : response :=
  {| res_status := n; res_body := Some b |}.

Definition params_object (req : request) : list (string * jsval) :=
  map (fun kv => (fst kv, JStr (snd kv))) (req_params req).

(** [req.params.k] *)
Definition param (req : request) (k : string) : jsval :=
  match lookup k (params_object req) with
  | Some v => v
  | None => JUndefined
  end.

(** *** Collaborator calls, each recorded as one event

    [check_acl] resolves to a boolean, which the handlers test with [!ok]. *)

Definition check_acl (principal : jsval) (perm : string) (target : jsval) (wild : bool)
  : M bool :=
  call (EvCheckAcl principal perm target wild)
       (fun c s => Auth_check_acl c s principal perm target wild).

Definition register_service_url (service url : string) : M unit :=
  call (EvRegisterServiceUrl service url)
       (fun c s => Directory_register_service_url c s service url).

Definition service_url (service : string) : M jsval :=
  call (EvServiceUrl service) (fun c s => Discovery_service_url c s service).

Definition get_config (app : string) (obj : jsval) : M jsval :=
  call (EvGetConfig app obj) (fun c s => ConfigDB_get_config c s app obj).

Definition create_object (class : string) : M jsval :=
  call (EvCreateObject class) (fun c s => ConfigDB_create_object c s class).

Definition put_config (app : string) (obj value : jsval) : M unit :=
  call (EvPutConfig app obj value) (fun c s => ConfigDB_put_config c s app obj value).

Definition fetch (service method url : string) : M fetch_response :=
  call (EvFetch service method url) (fun c s => fplus_fetch c s service method url).

Definition clone (url : jsval) : M checkout :=
  call (EvCheckoutClone url) (fun c s => Checkout_clone c s url).

Definition init_checkout (url : jsval) : M checkout :=
  call (EvCheckoutInit url) (fun c s => Checkout_init c s url).

Definition list_manifests (co : checkout) (ns kind : string)
  : M (list (string * string * string)) :=
  call (EvListManifests co ns kind) (fun c s => co_list_manifests c s co ns kind).

Definition read_manifest (co : checkout) (ns kind : string) (name : jsval) : M jsval :=
  call (EvReadManifest co ns kind name) (fun c s => co_read_manifest c s co ns kind name).

Definition write_file (co : checkout) (path text : string) : M unit :=
  call (EvWriteFile co path text) (fun c s => co_write_file c s co path text).

Definition write_manifest (co : checkout) (doc : jsval) : M unit :=
  call (EvWriteManifest co doc) (fun c s => co_write_manifest c s co doc).

Definition commit (co : checkout) (msg : string) : M unit :=
  call (EvCommit co msg) (fun c s => co_commit c s co msg).

Definition push (co : checkout) : M unit :=
  call (EvPush co) (fun c s => co_push c s co).

Definition dispose (co : checkout) : M unit :=
  call (EvDispose co) (fun c s => co_dispose c s co).

Definition secrets_seal (opts : sealer_opts) : M Z :=
  call (EvSealSecret opts) (fun c s => secrets_seal_secret c s opts).

Definition secrets_delete (opts : sealer_opts) : M Z :=
  call (EvDeleteSecret opts) (fun c s => secrets_delete_secret c s opts).

(** [Promise.all(ps)]: every promise is started, in order; the result is the
    list of values, or the rejection of the first one in the list that
    rejects. *)
Fixpoint promise_all {A} (ps : list (M A)) : M (list A) :=
  fun this s =>
    match ps with
    | [] => (Ok [], [])
    | p :: rest =>
        let (r, t) := p this s in
        let (rs, ts) := promise_all rest this (advance s t) in
        (match r, rs with
         | Ok a, Ok l => Ok (a :: l)
         | Err e, _ => Err e
         | Ok _, Err e => Err e
         end, (t ++ ts)%list)
    end.

(** *** init: service registration and the route table *)

Definition init : M unit :=
  this <- ask ;;
  register_service_url (Edge_Service_EdgeDeployment (uuids this)) (http_url this).

(** *** cluster_has_git_creds *)

(** [gitr.spec?.secretRef?.name] *)
Definition secret_ref_name (gitr : jsval) : result jsval :=
  match get_prop gitr "spec" with
  | Ok spec => Ok (opt_prop (opt_prop spec "secretRef") "name")
  | Err e => Err e
  end.

(** [co.read_manifest(...mani).then(gitr => gitr.spec?.secretRef?.name)] *)
Definition read_secret_ref (co : checkout) (mani : string * string * string) : M jsval :=
  let '(ns, kind, name) := mani in
  gitr <- read_manifest co ns kind (JStr name) ;;
  lift (secret_ref_name gitr).

(** ["bearerToken" in enc || ("username" in enc && "password" in enc)] *)
Definition has_creds (enc : jsval) : result bool :=
  match js_in "bearerToken" enc with
  | Err e => Err e
  | Ok true => Ok true
  | Ok false =>
      match js_in "username" enc with
      | Err e => Err e
      | Ok false => Ok false
      | Ok true => js_in "password" enc
      end
  end.

(** The [for (const sname of secrets)] loop. *)
Fixpoint check_secrets (co : checkout) (secrets : list jsval) : M bool :=
  match secrets with
  | [] => ret true
  | sname :: rest =>
      sealed <- read_manifest co FLUX_NS "SealedSecret" sname ;;
      if negb (truthy sealed) then
        log "No sealed secret %s" ;;
        ret false
      else
        spec <- lift (get_prop sealed "spec") ;;
        enc <- lift (get_prop spec "encryptedData") ;;
        creds <- lift (has_creds enc) ;;
        if negb creds then
          log "Missing keys in secret %s, we have: %s" ;;
          ret false
        else check_secrets co rest
  end.

Definition cluster_has_git_creds (co : checkout) : M bool :=
  repos <- list_manifests co FLUX_NS "GitRepository" ;;
  names <- promise_all (map (read_secret_ref co) repos) ;;
  let secrets := filter (fun i => negb (nullish i)) names in
  check_secrets co secrets.

(** *** cluster_status

    [co.dispose()] is called without [await] and outside any [try]: it is
    reached only when the scan returned, and an exception it throws on the
    spot propagates like any other. *)

Definition cluster_status (req : request) : M response :=
  this <- ask ;;
  let cluster := param req "cluster" in
  ok <- check_acl (req_auth req) (Edge_Perm_Clusters (uuids this)) cluster true ;;
  if negb ok then ret (status_end 403) else
  info <- get_config (Edge_App_Cluster (uuids this)) cluster ;;
  if negb (truthy info) then ret (status_end 404) else
  flux <- lift (get_prop info "flux") ;;
  co <- clone flux ;;
  ready <- cluster_has_git_creds co ;;
  dispose co ;;
  ret (status_json 200 (JObj [("ready", JBool ready)])).

(** *** create_cluster and its steps *)

Definition create_repo (name : jsval) : M jsval :=
  this <- ask ;;
  let repo := group this ++ "/" ++ to_string name in
  log "Creating repo %s" ;;
  res <- fetch (Git_Service_Git (uuids this)) "POST" ("/git/" ++ repo) ;;
  if negb (fr_status res =? 200)%Z then
    throw (Thrown (JStr ("Git: can't create repo " ++ repo ++ ": "
                           ++ string_of_Z (fr_status res))))
  else lift (fr_json res).

Definition create_cluster_objects (spec repo : jsval) : M jsval :=
  this <- ask ;;
  name <- lift (get_prop spec "name") ;;
  kubeseal_cert <- lift (get_prop spec "kubeseal_cert") ;;
  ns <- lift (get_prop spec "namespace") ;;
  let namespace := if nullish ns then JStr "fplus-edge" else ns in
  uuid <- create_object (Edge_Class_Cluster (uuids this)) ;;
  log "Created Edge Cluster %s" ;;
  put_config (UUIDs_App_Info (uuids this)) uuid (JObj [("name", name)]) ;;
  put_config (Edge_App_Cluster (uuids this)) uuid
    (JObj [("flux", repo); ("namespace", namespace); ("kubeseal_cert", kubeseal_cert)]) ;;
  ret uuid.

(** [this.write_sealed_secret(co, cert, opts)].  The class has no method of
    this name (sealing lives in the [SealedSecrets] object, [this.secrets]),
    so the property reads as [undefined]; the arguments are evaluated and the
    call then throws. *)
Definition this_write_sealed_secret
  (co : checkout) (cert : jsval) (opts : sealer_opts) : M unit :=
  throw (TypeError "this.write_sealed_secret is not a function").

(** The body of [for (const source of spec.sources)]. *)
Definition add_source (co : checkout) (git_base : jsval) (source : jsval) : M unit :=
  this <- ask ;;
  name <- lift (js_replace_slash source) ;;
  url <- lift (new_URL (fplus this) (to_string source) git_base) ;;
  log "Adding source %s" ;;
  write_manifest co (manifests_git_repo (fplus this) FLUX_NS name url) ;;
  write_manifest co (manifests_flux_kust (fplus this) FLUX_NS name name).

Fixpoint add_sources (co : checkout) (git_base : jsval) (sources : list jsval) : M unit :=
  match sources with
  | [] => ret tt
  | source :: rest =>
      add_source co git_base source ;;
      add_sources co git_base rest
  end.

Definition setup_repo_links (co : checkout) (spec : jsval) : M unit :=
  this <- ask ;;
  sources <- lift (get_prop spec "sources") ;;
  if negb (truthy sources) then ret tt else
  git_base <- service_url (Git_Service_Git (uuids this)) ;;
  cert <- lift (get_prop spec "kubeseal_cert") ;;
  name <- lift (get_prop spec "name") ;;
  this_write_sealed_secret co cert
    {| opt_props := [("namespace", JStr FLUX_NS);
                     ("name", JStr "op1flux-secrets");
                     ("key", JStr "username")];
       opt_content := Some (ReadableFrom ("op1flux/" ++ to_string name)) |} ;;
  sources' <- lift (get_prop spec "sources") ;;
  items <- lift (iterate sources') ;;
  add_sources co git_base items ;;
  commit co "Written flux source manifests.".

Definition populate_cluster_repo (repo spec : jsval) : M unit :=
  this <- ask ;;
  log "Performing initial cluster deployment" ;;
  url <- lift (get_prop repo "url") ;;
  co <- init_checkout url ;;
  write_file co "README.md" (manifests_README (fplus this)) ;;
  commit co "Add README." ;;
  setup_repo_links co spec ;;
  push co ;;
  log "Pushed initial commits".

Definition create_cluster (req : request) : M response :=
  this <- ask ;;
  name <- lift (get_prop (req_body req) "name") ;;
  _ <- lift (get_prop (req_body req) "sources") ;;
  ok <- check_acl (req_auth req) (Edge_Perm_Clusters (uuids this))
          (JStr (UUIDs_Null (uuids this))) false ;;
  if negb ok then ret (status_end 403) else
  repo <- create_repo name ;;
  url <- lift (get_prop repo "url") ;;
  uuid <- create_cluster_objects (req_body req) url ;;
  populate_cluster_repo repo (req_body req) ;;
  flux <- lift (get_prop repo "url") ;;
  ret (status_json 201 (JObj [("uuid", uuid); ("flux", flux)])).

(** *** seal_secret and delete_sealed_secret *)

(** ["dryrun" in req.query] *)
Definition dryrun_flag (req : request) : bool :=
  has_key "dryrun" (req_query req).

(** [{ ...req.params, content: req, dryrun: "dryrun" in req.query }].  The two
    named properties come after the spread and win over a parameter of the
    same name; the [content] stream is kept in its own field. *)
Definition seal_opts (req : request) : sealer_opts :=
  {| opt_props :=
       obj_set "dryrun" (JBool (dryrun_flag req))
         (filter (fun kv => negb (fst kv =? "content")) (params_object req));
     opt_content := Some (RequestBody (req_raw req)) |}.

(** [{ ...req.params, dryrun: "dryrun" in req.query }] *)
Definition delete_opts (req : request) : sealer_opts :=
  {| opt_props := obj_set "dryrun" (JBool (dryrun_flag req)) (params_object req);
     opt_content := None |}.

(** [opts.k] for a plain property. *)
Definition opt_get (opts : sealer_opts) (k : string) : jsval :=
  match lookup k (opt_props opts) with
  | Some v => v
  | None => JUndefined
  end.

Definition seal_secret (req : request) : M response :=
  this <- ask ;;
  let opts := seal_opts req in
  ok <- check_acl (req_auth req) (Edge_Perm_Secrets (uuids this))
          (opt_get opts "cluster") true ;;
  if negb ok then ret (status_end 403) else
  st <- secrets_seal opts ;;
  ret (status_end st).

Definition delete_sealed_secret (req : request) : M response :=
  this <- ask ;;
  let opts := delete_opts req in
  ok <- check_acl (req_auth req) (Edge_Perm_Secrets (uuids this))
          (opt_get opts "cluster") true ;;
  if negb ok then ret (status_end 403) else
  st <- secrets_delete opts ;;
  ret (status_end st).

(** *** The route table set up by [init] *)

Inductive endpoint : Type :=
| PostCluster            (* POST   /cluster *)
| GetClusterStatus       (* GET    /cluster/:cluster/status *)
| PutSecret              (* PUT    /cluster/:cluster/secret/:namespace/:name/:key *)
| DeleteSecret.          (* DELETE /cluster/:cluster/secret/:namespace/:name/:key *)

(** The handler registered for each route.  [wrap] hands a thrown exception
    to the next middleware: that is the [Err] outcome of the handler. *)
Definition handler (ep : endpoint) : request -> M response :=
  match ep with
  | PostCluster => create_cluster
  | GetClusterStatus => cluster_status
  | PutSecret => seal_secret
  | DeleteSecret => delete_sealed_secret
  end.

(** Route matching on the method and the path segments, with the route
    parameters it binds. *)
Definition route (method : string) (path : list string)
  : option (endpoint * list (string * string)) :=
  match path with
  | ["cluster"] =>
      if method =? "POST" then Some (PostCluster, []) else None
  | ["cluster"; c; "status"] =>
      if method =? "GET" then Some (GetClusterStatus, [("cluster", c)]) else None
  | ["cluster"; c; "secret"; ns; n; k] =>
      let ps := [("cluster", c); ("namespace", ns); ("name", n); ("key", k)] in
      if method =? "PUT" then Some (PutSecret, ps)
      else if method =? "DELETE" then Some (DeleteSecret, ps)
      else None
  | _ => None
  end.

End Edge.
Export Edge.

(** ** Test doubles

    A world whose checkouts all hold the same manifest files, whose access
    control gives one fixed answer, and whose Git service answers repository
    creation with one fixed status.  It is used to run the handlers on
    concrete requests. *)

Module Double.

Definition manifest_files := list ((string * string * string) * jsval).

Definition same_key (k1 k2 : string * string * jsval) : bool :=
  match k1, k2 with
  | (ns1, kind1, JStr n1), (ns2, kind2, JStr n2) =>
      (ns1 =? ns2) && (kind1 =? kind2) && (n1 =? n2)
  | _, _ => false
  end.

Definition file_key (f : (string * string * string) * jsval) : string * string * jsval :=
  let '((ns, kind, name), _) := f in (ns, kind, JStr name).

Definition list_files (files : manifest_files) (ns kind : string)
  : list (string * string * string) :=
  map fst (filter (fun f => let '((ns', kind', _), _) := f in
                            (ns' =? ns) && (kind' =? kind)) files).

Definition read_file (files : manifest_files) (ns kind : string) (name : jsval) : jsval :=
  match find (fun f => same_key (file_key f) (ns, kind, name)) files with
  | Some f => snd f
  | None => JUndefined
  end.

Definition the_uuids : Uuids :=
  {| Edge_Service_EdgeDeployment := "service:edge-deployment";
     Edge_Perm_Clusters := "perm:clusters";
     Edge_Perm_Secrets := "perm:secrets";
     Edge_App_Cluster := "app:cluster";
     Edge_Class_Cluster := "class:cluster";
     Git_Service_Git := "service:git";
     UUIDs_Null := "00000000-0000-0000-0000-000000000000";
     UUIDs_App_Info := "app:info" |}.

Definition collab (files : manifest_files) (allowed : bool) (git_status : Z) : Collab :=
  {| Auth_check_acl := fun _ _ _ _ _ => Ok allowed;
     Directory_register_service_url := fun _ _ _ => Ok tt;
     Discovery_service_url := fun _ _ => Ok (JStr "https://git.example/");
     ConfigDB_get_config := fun _ _ obj =>
       Ok (JObj [("flux", JStr ("https://git.example/git/" ++ to_string obj))]);
     ConfigDB_create_object := fun _ _ => Ok (JStr "uuid-1");
     ConfigDB_put_config := fun _ _ _ _ => Ok tt;
     fplus_fetch := fun _ _ _ url =>
       Ok {| fr_status := git_status;
             fr_json := Ok (JObj [("path", JStr url);
                                  ("url", JStr ("https://git.example" ++ url))]) |};
     Checkout_clone := fun _ _ => Ok 7%nat;
     Checkout_init := fun _ _ => Ok 8%nat;
     co_list_manifests := fun _ _ ns kind => Ok (list_files files ns kind);
     co_read_manifest := fun _ _ ns kind name => Ok (read_file files ns kind name);
     co_write_file := fun _ _ _ _ => Ok tt;
     co_write_manifest := fun _ _ _ => Ok tt;
     co_commit := fun _ _ _ => Ok tt;
     co_push := fun _ _ => Ok tt;
     co_dispose := fun _ _ => Ok tt;
     secrets_seal_secret := fun _ opts => Ok 204%Z;
     secrets_delete_secret := fun _ opts => Ok 204%Z;
     manifests_README := "# Edge cluster";
     manifests_git_repo := fun ns name url =>
       JObj [("kind", JStr "GitRepository");
             ("metadata", JObj [("namespace", JStr ns); ("name", JStr name)]);
             ("spec", JObj [("url", JStr url)])];
     manifests_flux_kust := fun ns name source =>
       JObj [("kind", JStr "Kustomization");
             ("metadata", JObj [("namespace", JStr ns); ("name", JStr name)]);
             ("spec", JObj [("sourceRef", JObj [("name", JStr source)])])];
     new_URL := fun source base => Ok (to_string base ++ source) |}.

Definition deploy (files : manifest_files) (allowed : bool) (git_status : Z) : EdgeDeploy :=
  {| uuids := the_uuids;
     fplus := collab files allowed git_status;
     http_url := "http://edge.example";
     group := "clusters" |}.

Definition git_repository (name : string) (secret : option string) : (string * string * string) * jsval :=
  ((FLUX_NS, "GitRepository", name),
   JObj [("kind", JStr "GitRepository");
         ("spec", JObj (("url", JStr "https://src.example/r")
                        :: match secret with
                           | Some sn => [("secretRef", JObj [("name", JStr sn)])]
                           | None => []
                           end))]).

Definition sealed_secret (name : string) (doc : jsval) : (string * string * string) * jsval :=
  ((FLUX_NS, "SealedSecret", name), doc).

Definition encrypted (keys : list string) : jsval :=
  JObj [("kind", JStr "SealedSecret");
        ("spec", JObj [("encryptedData",
                        JObj (map (fun k => (k, JStr "AgB...")) keys))])].

Definition status_request (cluster : string) : request :=
  {| req_auth := JStr "alice";
     req_params := [("cluster", cluster)];
     req_query := [];
     req_body := JUndefined;
     req_raw := "" |}.

Definition secret_request (query : list (string * jsval)) : request :=
  {| req_auth := JStr "alice";
     req_params := [("cluster", "c1"); ("namespace", "ns1"); ("name", "db"); ("key", "password")];
     req_query := query;
     req_body := JUndefined;
     req_raw := "hunter2" |}.

Definition cluster_request (sources : list (string * jsval)) : request :=
  {| req_auth := JStr "alice";
     req_params := [];
     req_query := [];
     req_body := JObj (("name", JStr "cell1") :: sources
                         ++ [("kubeseal_cert", JStr "PEM...")])%list;
     req_raw := "" |}.

(** A checkout with two sources, one of them with a bearer-token secret. *)
Definition ready_files : manifest_files :=
  [ git_repository "a" (Some "s1");
    git_repository "b" None;
    sealed_secret "s1" (encrypted ["bearerToken"]) ].

(** A checkout whose only source refers to a secret that is not there. *)
Definition missing_secret_files : manifest_files :=
  [ git_repository "a" (Some "s1") ].

(** A checkout whose SealedSecret document has no [spec]. *)
Definition no_spec_files : manifest_files :=
  [ git_repository "a" (Some "s1");
    sealed_secret "s1" (JObj [("kind", JStr "SealedSecret")]) ].

(** A checkout whose SealedSecret document has a [spec] without
    [encryptedData]. *)
Definition no_data_files : manifest_files :=
  [ git_repository "a" (Some "s1");
    sealed_secret "s1" (JObj [("kind", JStr "SealedSecret"); ("spec", JObj [])]) ].

(** The provisioning request of the specification's scenario. *)
Definition cell1_request : request :=
  cluster_request [("sources", JArr [JStr "org/repoA"])].

End Double.

(** ** Vocabulary of the properties *)

Module Props.

(** Every call a computation makes satisfies [P], whatever the world. *)
Definition emits {A} (P : event -> bool) (m : M A) : Prop :=
  forall this s, forallb P (snd (m this s)) = true.

Definition is_read (e : event) : bool := negb (is_write e).

Definition is_dispose (co : checkout) (e : event) : bool :=
  match e with
  | EvDispose c => Nat.eqb c co
  | _ => false
  end.

(** How many times the working copy [co] was disposed of. *)
Definition disposals (co : checkout) (t : list event) : nat :=
  List.length (filter (is_dispose co) t).

(** The calls proper, without the log lines. *)
Definition calls (t : list event) : list event :=
  filter (fun e => negb (is_log e)) t.

(** *** Readiness, in the words of the specification *)

Definition mem (k : string) (ks : list string) : bool :=
  existsb (fun k' => k' =? k) ks.

(** The key set of [spec.encryptedData] of a SealedSecret document. *)
Definition encrypted_keys (sealed : jsval) : option (list string) :=
  match sealed with
  | JObj ps =>
      match lookup "spec" ps with
      | Some (JObj sp) =>
          match lookup "encryptedData" sp with
          | Some (JObj enc) => Some (map fst enc)
          | _ => None
          end
      | _ => None
      end
  | _ => None
  end.

(** The credential is present if the key set contains [bearerToken], or
    contains both [username] and [password]. *)
Definition accepted_credential (sealed : jsval) : bool :=
  match encrypted_keys sealed with
  | Some ks => mem "bearerToken" ks || (mem "username" ks && mem "password" ks)
  | None => false
  end.

(** What the scan does with a SealedSecret document once it is known to be
    truthy: [sealed.spec.encryptedData] and the key test. *)
Definition inspect (sealed : jsval) : result bool :=
  match get_prop sealed "spec" with
  | Err e => Err e
  | Ok spec =>
      match get_prop spec "encryptedData" with
      | Err e => Err e
      | Ok enc => has_creds enc
      end
  end.

(** A SealedSecret document whose [spec.encryptedData] is an object (an
    array counts as one). *)
Definition has_encrypted_data (sealed : jsval) : bool :=
  match get_prop sealed "spec" with
  | Ok spec =>
      match get_prop spec "encryptedData" with
      | Ok (JObj _) | Ok (JArr _) => true
      | _ => false
      end
  | Err _ => false
  end.

(** The outcome of reading one listed GitRepository manifest and taking its
    secret reference. *)
Definition ref_of (this : EdgeDeploy) (s : extstate) (co : checkout)
  (mani : string * string * string) : result jsval :=
  let '(ns, kind, name) := mani in
  match co_read_manifest (fplus this) s co ns kind (JStr name) with
  | Ok gitr => secret_ref_name gitr
  | Err e => Err e
  end.

(** The values of a list of outcomes, or its first exception. *)
Fixpoint all_ok {A} (rs : list (result A)) : result (list A) :=
  match rs with
  | [] => Ok []
  | r :: rest =>
      match r, all_ok rest with
      | Ok a, Ok l => Ok (a :: l)
      | Err e, _ => Err e
      | Ok _, Err e => Err e
      end
  end.

(** A status request that gets as far as the scan and can finish: access is
    granted, the Cluster config entry [info] exists, cloning its [flux]
    repository gives [co], and disposing of [co] does not throw. *)
Definition reaches_scan (this : EdgeDeploy) (s : extstate) (req : request)
  (co : checkout) : Prop :=
  Auth_check_acl (fplus this) s (req_auth req) (Edge_Perm_Clusters (uuids this))
    (param req "cluster") true = Ok true
  /\ exists info flux,
      ConfigDB_get_config (fplus this) s (Edge_App_Cluster (uuids this))
        (param req "cluster") = Ok info
      /\ truthy info = true
      /\ get_prop info "flux" = Ok flux
      /\ Checkout_clone (fplus this) s flux = Ok co.

(** The checkout lists the GitRepository manifests [repos] of the flux
    namespace and each of them reads back as a document. *)
Definition lists_manifests (this : EdgeDeploy) (s : extstate) (co : checkout)
  (repos : list (string * string * string)) : Prop :=
  co_list_manifests (fplus this) s co FLUX_NS "GitRepository" = Ok repos
  /\ forall ns kind name, In (ns, kind, name) repos ->
       exists doc, co_read_manifest (fplus this) s co ns kind (JStr name) = Ok doc
                   /\ nullish doc = false.

(** The secret names the listed manifests refer to: [sname] is the
    [spec.secretRef.name] of one of them, and it is specified. *)
Definition referenced (this : EdgeDeploy) (s : extstate) (co : checkout)
  (repos : list (string * string * string)) (sname : jsval) : Prop :=
  exists ns kind name doc,
    In (ns, kind, name) repos
    /\ co_read_manifest (fplus this) s co ns kind (JStr name) = Ok doc
    /\ secret_ref_name doc = Ok sname
    /\ nullish sname = false.

Definition ready_response (b : bool) : response :=
  status_json 200 (JObj [("ready", JBool b)]).

(** *** The provisioning saga *)

(** The stage of the saga a call belongs to: access check, repository
    creation, registry, working copy (initialisation, files, commits), push. *)
Definition saga_phase (e : event) : option nat :=
  match e with
  | EvCheckAcl _ _ _ _ => Some 0%nat
  | EvFetch _ _ _ => Some 1%nat
  | EvCreateObject _ | EvPutConfig _ _ _ => Some 2%nat
  | EvCheckoutInit _ | EvWriteFile _ _ _ | EvWriteManifest _ _
  | EvCommit _ _ | EvServiceUrl _ => Some 3%nat
  | EvPush _ => Some 4%nat
  | _ => None
  end.

(** The calls of [t] are saga calls and their stages never go back. *)
Fixpoint ordered_from (p : nat) (t : list event) : bool :=
  match t with
  | [] => true
  | e :: rest =>
      if is_log e then ordered_from p rest
      else match saga_phase e with
           | Some q => (p <=? q)%nat && ordered_from q rest
           | None => false
           end
  end.

Definition saga_ordered (t : list event) : Prop := ordered_from 0 t = true.

(** The call [e], made in state [s], came back without an exception; for the
    repository-creation request, with status 200 and a JSON body. *)
Definition call_succeeded (c : Collab) (s : extstate) (e : event) : bool :=
  match e with
  | EvLog _ => true
  | EvRegisterServiceUrl a b => is_ok (Directory_register_service_url c s a b)
  | EvCheckAcl p perm t w => is_ok (Auth_check_acl c s p perm t w)
  | EvFetch a m u =>
      match fplus_fetch c s a m u with
      | Ok fr => (fr_status fr =? 200)%Z && is_ok (fr_json fr)
      | Err _ => false
      end
  | EvCreateObject cls => is_ok (ConfigDB_create_object c s cls)
  | EvPutConfig a o v => is_ok (ConfigDB_put_config c s a o v)
  | EvGetConfig a o => is_ok (ConfigDB_get_config c s a o)
  | EvServiceUrl a => is_ok (Discovery_service_url c s a)
  | EvCheckoutInit u => is_ok (Checkout_init c s u)
  | EvCheckoutClone u => is_ok (Checkout_clone c s u)
  | EvWriteFile co p x => is_ok (co_write_file c s co p x)
  | EvWriteManifest co d => is_ok (co_write_manifest c s co d)
  | EvListManifests co ns k => is_ok (co_list_manifests c s co ns k)
  | EvReadManifest co ns k n => is_ok (co_read_manifest c s co ns k n)
  | EvCommit co m => is_ok (co_commit c s co m)
  | EvPush co => is_ok (co_push c s co)
  | EvDispose co => is_ok (co_dispose c s co)
  | EvSealSecret o => is_ok (secrets_seal_secret c s o)
  | EvDeleteSecret o => is_ok (secrets_delete_secret c s o)
  end.

(** Every call of [t] that is followed by another call succeeded: nothing is
    started after a step that failed. *)
Fixpoint stops_at_failure (c : Collab) (s : extstate) (t : list event) : Prop :=
  match t with
  | [] => True
  | e :: rest =>
      match rest with
      | [] => True
      | _ :: _ => call_succeeded c s e = true /\ stops_at_failure c (advance s [e]) rest
      end
  end.

(** The calls of a provisioning run that completes, in order: access check,
    repository creation, registry object and its two config entries, working
    copy with the README commit, push. *)
Definition saga_calls (this : EdgeDeploy) (req : request)
  (name url uuid ns cert : jsval) (co : checkout) : list event :=
  [ EvCheckAcl (req_auth req) (Edge_Perm_Clusters (uuids this))
      (JStr (UUIDs_Null (uuids this))) false;
    EvFetch (Git_Service_Git (uuids this)) "POST"
      ("/git/" ++ group this ++ "/" ++ to_string name);
    EvCreateObject (Edge_Class_Cluster (uuids this));
    EvPutConfig (UUIDs_App_Info (uuids this)) uuid (JObj [("name", name)]);
    EvPutConfig (Edge_App_Cluster (uuids this)) uuid
      (JObj [("flux", url); ("namespace", ns); ("kubeseal_cert", cert)]);
    EvCheckoutInit url;
    EvWriteFile co "README.md" (manifests_README (fplus this));
    EvCommit co "Add README.";
    EvPush co ].

Definition is_write_manifest (e : event) : bool :=
  match e with
  | EvWriteManifest _ _ => true
  | _ => false
  end.

(** The access-control question each endpoint asks. *)
Definition acl_query (this : EdgeDeploy) (ep : endpoint) (req : request) : event :=
  match ep with
  | PostCluster =>
      EvCheckAcl (req_auth req) (Edge_Perm_Clusters (uuids this))
        (JStr (UUIDs_Null (uuids this))) false
  | GetClusterStatus =>
      EvCheckAcl (req_auth req) (Edge_Perm_Clusters (uuids this))
        (param req "cluster") true
  | PutSecret | DeleteSecret =>
      EvCheckAcl (req_auth req) (Edge_Perm_Secrets (uuids this))
        (param req "cluster") true
  end.

(** Access control answers [e] with "no". *)
Definition denied (this : EdgeDeploy) (s : extstate) (e : event) : Prop :=
  match e with
  | EvCheckAcl p perm t w => Auth_check_acl (fplus this) s p perm t w = Ok false
  | _ => False
  end.

End Props.
Export Props.

(** ** The Rx extension

    [rxx.flatten] is [mergeMap(v => v != null ? rx.from(v) : rx.EMPTY)].  It is
    modelled on sources and inner observables that emit synchronously: a run
    is the list of values emitted, followed by completion or by an error.
    With such inner observables [mergeMap] hands on the values of one inner
    observable before it takes the next source value, and an error ends the
    run.  What [rx.from] makes of a value is left to the library. *)

Module Rxx.

(** A synchronous run: the values emitted, and the error that ended the run,
    if one did. *)
Definition run : Type := list jsval * option exn.

(** [rx.EMPTY] *)
Definition EMPTY : run := ([], None).

Section Flatten.

(** [rx.from] *)
Variable rx_from : jsval -> run.

(** [v => v != null ? rx.from(v) : rx.EMPTY] *)
Definition project (v : jsval) : run :=
  if negb (nullish v) then rx_from v else EMPTY.

(** [mergeMap(project)] applied to the source values [source]. *)
Fixpoint merge_map (source : list jsval) : run :=
  match source with
  | [] => ([], None)
  | v :: rest =>
      match project v with
      | (items, None) =>
          let (out, err) := merge_map rest in ((items ++ out)%list, err)
      | (items, Some e) => (items, Some e)
      end
  end.

Definition flatten (source : list jsval) : run := merge_map source.

End Flatten.

(** One run after another: the second starts only if the first completed. *)
Definition then_run (r1 r2 : run) : run :=
  match r1 with
  | (out1, None) => let (out2, err) := r2 in ((out1 ++ out2)%list, err)
  | (out1, Some e) => (out1, Some e)
  end.

End Rxx.

(** ** More test doubles and vocabulary *)

Module More.

(** The collaborators [c] with another registry lookup, registry write and
    sealer. *)
Definition override (c : Collab)
  (get : extstate -> string -> jsval -> result jsval)
  (put : extstate -> string -> jsval -> jsval -> result unit)
  (seal : extstate -> sealer_opts -> result Z) : Collab :=
  {| Auth_check_acl := Auth_check_acl c;
     Directory_register_service_url := Directory_register_service_url c;
     Discovery_service_url := Discovery_service_url c;
     ConfigDB_get_config := get;
     ConfigDB_create_object := ConfigDB_create_object c;
     ConfigDB_put_config := put;
     fplus_fetch := fplus_fetch c;
     Checkout_clone := Checkout_clone c;
     Checkout_init := Checkout_init c;
     co_list_manifests := co_list_manifests c;
     co_read_manifest := co_read_manifest c;
     co_write_file := co_write_file c;
     co_write_manifest := co_write_manifest c;
     co_commit := co_commit c;
     co_push := co_push c;
     co_dispose := co_dispose c;
     secrets_seal_secret := seal;
     secrets_delete_secret := seal;
     manifests_README := manifests_README c;
     manifests_git_repo := manifests_git_repo c;
     manifests_flux_kust := manifests_flux_kust c;
     new_URL := new_URL c |}.

Definition deploy_with (c : Collab) : EdgeDeploy :=
  {| uuids := Double.the_uuids;
     fplus := c;
     http_url := "http://edge.example";
     group := "clusters" |}.

(** A registry that knows no cluster. *)
Definition no_config : EdgeDeploy :=
  deploy_with (override (Double.collab [] true 200)
                 (fun _ _ _ => Ok JUndefined)
                 (ConfigDB_put_config (Double.collab [] true 200))
                 (secrets_seal_secret (Double.collab [] true 200))).

(** A registry that refuses every write. *)
Definition read_only_registry : EdgeDeploy :=
  deploy_with (override (Double.collab [] true 200)
                 (ConfigDB_get_config (Double.collab [] true 200))
                 (fun _ _ _ _ => Err (Thrown (JStr "ConfigDB: 503")))
                 (secrets_seal_secret (Double.collab [] true 200))).

(** A sealer that answers 409. *)
Definition conflicting_sealer : EdgeDeploy :=
  deploy_with (override (Double.collab [] true 200)
                 (ConfigDB_get_config (Double.collab [] true 200))
                 (ConfigDB_put_config (Double.collab [] true 200))
                 (fun _ _ => Ok 409%Z)).

(** [rx.from] on JSON values, for the examples: an array emits its items, a
    string its characters, anything else is refused. *)
Definition from_json (v : jsval) : Rxx.run :=
  match v with
  | JArr l => (l, None)
  | JStr str => (chars str, None)
  | _ => ([], Some (TypeError "You provided an invalid object where a stream was expected"))
  end.

(** The read of one listed manifest. *)
Definition manifest_read (co : checkout) (mani : string * string * string) : event :=
  let '(ns, kind, name) := mani in EvReadManifest co ns kind (JStr name).

(** The read of one referenced secret. *)
Definition secret_read (co : checkout) (sname : jsval) : event :=
  EvReadManifest co FLUX_NS "SealedSecret" sname.

(** What the loop over the referenced secrets may do: read a SealedSecret of
    the flux namespace from [co], or log. *)
Definition is_secret_step (co : checkout) (e : event) : bool :=
  match e with
  | EvReadManifest c ns kind _ =>
      Nat.eqb c co && (ns =? FLUX_NS) && (kind =? "SealedSecret")
  | EvLog _ => true
  | _ => false
  end.

(** The calls [add_source] makes for the source [source] resolved to [url]. *)
Definition source_calls (this : EdgeDeploy) (co : checkout) (source url : string)
  : list event :=
  let name := replace_first "/"%char "." source in
  [ EvLog "Adding source %s";
    EvWriteManifest co (manifests_git_repo (fplus this) FLUX_NS name url);
    EvWriteManifest co (manifests_flux_kust (fplus this) FLUX_NS name name) ].

Fixpoint has_char (c : ascii) (str : string) : bool :=
  match str with
  | EmptyString => false
  | String a rest => Ascii.eqb a c || has_char c rest
  end.

(** The two registry entries of a cluster. *)
Definition info_entry (spec : jsval) : jsval :=
  JObj [("name", opt_prop spec "name")].

Definition cluster_entry (spec repo : jsval) : jsval :=
  JObj [("flux", repo);
        ("namespace",
         if nullish (opt_prop spec "namespace") then JStr "fplus-edge"
         else opt_prop spec "namespace");
        ("kubeseal_cert", opt_prop spec "kubeseal_cert")].

End More.

(** ** Traces and states *)

Section Traces.

Lemma advance_app (s : extstate) (t1 t2 : list event) :
  advance s (t1 ++ t2) = advance (advance s t1) t2.
Proof. unfold advance. apply fold_left_app. Qed.

Lemma advance_reads (s : extstate) (t : list event) :
  forallb is_read t = true -> advance s t = s.
Proof.
  revert s. induction t as [|e t IH]; intros s H; [reflexivity|].
  cbn in H. apply andb_true_iff in H. destruct H as [He Ht].
  unfold advance in *. cbn. unfold is_read in He.
  destruct (is_write e); [discriminate|]. now apply IH.
Qed.

Lemma advance_writes (s : extstate) (t : list event) :
  advance s t = (s ++ writes t)%list.
Proof.
  revert s. induction t as [|e t IH]; intros s.
  - cbn. now rewrite app_nil_r.
  - unfold advance in *. cbn. unfold writes in *. cbn.
    destruct (is_write e); rewrite IH; [now rewrite <- app_assoc|reflexivity].
Qed.

Context {A B : Type} (P : event -> bool).

Lemma emits_ret (a : A) : emits P (ret a).
Proof. intros this s. reflexivity. Qed.

Lemma emits_throw (e : exn) : emits P (@throw A e).
Proof. intros this s. reflexivity. Qed.

Lemma emits_lift (r : result A) : emits P (lift r).
Proof. intros this s. reflexivity. Qed.

Lemma emits_call (e : event) (answer : Collab -> extstate -> result A) :
  P e = true -> emits P (call e answer).
Proof. intros H this s. cbn. now rewrite H. Qed.

Lemma emits_bind (m : M A) (f : A -> M B) :
  emits P m -> (forall a, emits P (f a)) -> emits P (bind m f).
Proof.
  intros Hm Hf this s. unfold bind.
  specialize (Hm this s). destruct (m this s) as [[a|e] t1]; cbn in *; [|assumption].
  specialize (Hf a this (advance s t1)).
  destruct (f a this (advance s t1)) as [r t2]. cbn in *.
  rewrite forallb_app. now rewrite Hm, Hf.
Qed.

Lemma emits_promise_all (ps : list (M A)) :
  (forall p, In p ps -> emits P p) -> emits P (promise_all ps).
Proof.
  induction ps as [|p ps IH]; intros H this s; [reflexivity|].
  cbn. pose proof (H p (or_introl eq_refl) this s) as Hp.
  destruct (p this s) as [r t]. cbn in Hp.
  assert (Hps : emits P (promise_all ps)) by (apply IH; intros q Hq; apply H; now right).
  specialize (Hps this (advance s t)).
  destruct (promise_all ps this (advance s t)) as [rs ts]. cbn in *.
  rewrite forallb_app. now rewrite Hp, Hps.
Qed.

End Traces.

Lemma emits_ask (P : event -> bool) : emits P ask.
Proof. intros this s. reflexivity. Qed.

Lemma emits_log (P : event -> bool) (fmt : string) :
  P (EvLog fmt) = true -> emits P (log fmt).
Proof. intros H this s. cbn. now rewrite H. Qed.

(** A computation that only reads leaves the external state as it found it. *)
Lemma reads_keep_state {A} (m : M A) (this : EdgeDeploy) (s : extstate) :
  emits is_read m -> advance s (snd (m this s)) = s.
Proof. intros H. apply advance_reads, H. Qed.

(** ** The readiness scan *)

Ltac emits_simple :=
  first [ apply emits_ret | apply emits_throw | apply emits_lift | apply emits_ask
        | apply emits_log; solve [auto] | apply emits_call; solve [auto] ].

Ltac emits_auto :=
  repeat first [ emits_simple
               | match goal with
                 | |- emits _ (bind _ _) => apply emits_bind; [|intros ?]
                 | |- emits _ (if ?b then _ else _) => destruct b
                 | |- emits _ (let '(_, _) := ?p in _) => destruct p
                 end ].

Section Scan.

Variable P : event -> bool.
Variable co : checkout.
Hypothesis P_list : forall ns kind, P (EvListManifests co ns kind) = true.
Hypothesis P_read : forall ns kind name, P (EvReadManifest co ns kind name) = true.
Hypothesis P_log : forall fmt, P (EvLog fmt) = true.

Lemma emits_check_secrets (secrets : list jsval) : emits P (check_secrets co secrets).
Proof using P_read P_log.
  induction secrets as [|sname rest IH]; cbn [check_secrets]; emits_auto.
  exact IH.
Qed.

Lemma emits_read_secret_ref (mani : string * string * string) :
  emits P (read_secret_ref co mani).
Proof using P_read.
  destruct mani as [[ns kind] name]. unfold read_secret_ref, read_manifest. emits_auto.
Qed.

Lemma emits_cluster_has_git_creds : emits P (cluster_has_git_creds co).
Proof using P_list P_read P_log.
  unfold cluster_has_git_creds, list_manifests. emits_auto.
  - apply emits_promise_all. intros p Hp. apply in_map_iff in Hp.
    destruct Hp as [mani [<- _]]. apply emits_read_secret_ref.
  - apply emits_check_secrets.
Qed.

End Scan.

(** The scan only reads. *)
Lemma scan_reads (co : checkout) : emits is_read (cluster_has_git_creds co).
Proof. apply emits_cluster_has_git_creds; reflexivity. Qed.

(** The scan never disposes of a working copy. *)
Lemma scan_keeps_checkout (co co' : checkout) :
  emits (fun e => negb (is_dispose co' e)) (cluster_has_git_creds co).
Proof. apply emits_cluster_has_git_creds; reflexivity. Qed.

Lemma status_reads (req : request) : emits is_read (cluster_status req).
Proof.
  unfold cluster_status, check_acl, get_config, clone, dispose. emits_auto.
  apply scan_reads.
Qed.

(** *** One turn of the loop over the referenced secrets *)

Lemma check_secrets_cons (co : checkout) (sname : jsval) (rest : list jsval)
  (this : EdgeDeploy) (s : extstate) :
  check_secrets co (sname :: rest) this s =
  let ev := EvReadManifest co FLUX_NS "SealedSecret" sname in
  match co_read_manifest (fplus this) s co FLUX_NS "SealedSecret" sname with
  | Err e => (Err e, [ev])
  | Ok sealed =>
      if truthy sealed then
        match inspect sealed with
        | Err e => (Err e, [ev])
        | Ok false => (Ok false, [ev; EvLog "Missing keys in secret %s, we have: %s"])
        | Ok true =>
            let (r, t) := check_secrets co rest this s in (r, ev :: t)
        end
      else (Ok false, [ev; EvLog "No sealed secret %s"])
  end.
Proof.
  cbn [check_secrets]. unfold bind at 1. unfold read_manifest, call. cbn -[check_secrets has_creds].
  destruct (co_read_manifest (fplus this) s co FLUX_NS "SealedSecret" sname) as [sealed|e];
    [|reflexivity].
  destruct (truthy sealed); cbn -[check_secrets has_creds]; [|reflexivity].
  unfold inspect, bind, lift. cbn -[check_secrets has_creds].
  destruct (get_prop sealed "spec") as [spec|e]; [|reflexivity].
  cbn -[check_secrets has_creds].
  destruct (get_prop spec "encryptedData") as [enc|e]; [|reflexivity].
  cbn -[check_secrets has_creds].
  destruct (has_creds enc) as [[|]|e]; cbn -[check_secrets]; try reflexivity.
  destruct (check_secrets co rest this s) as [r t]. reflexivity.
Qed.

(** *** The key test against the specification's wording *)

Lemma has_key_mem (k : string) (props : list (string * jsval)) :
  has_key k props = mem k (map fst props).
Proof.
  unfold has_key, mem. induction props as [|[k' v] props IH]; cbn; [reflexivity|].
  now rewrite IH.
Qed.

(** No array index is spelled like one of the credential keys. *)
Lemma index_is_no_credential_key (k : string) (n : nat) :
  k = "bearerToken" \/ k = "username" \/ k = "password" ->
  existsb (fun i => string_of_nat i =? k) (seq 0 n) = false.
Proof.
  intros Hk. generalize 0%nat. induction n as [|n IH]; intros start; [reflexivity|].
  cbn [seq existsb]. rewrite IH, orb_false_r.
  unfold string_of_nat.
  destruct Hk as [-> | [-> | ->]]; destruct (Nat.to_uint start); reflexivity.
Qed.

Lemma has_creds_array (l : list jsval) : has_creds (JArr l) = Ok false.
Proof.
  unfold has_creds, js_in.
  rewrite !index_is_no_credential_key by auto. reflexivity.
Qed.

Lemma has_creds_object (enc : list (string * jsval)) :
  has_creds (JObj enc) =
  Ok (mem "bearerToken" (map fst enc)
      || (mem "username" (map fst enc) && mem "password" (map fst enc))).
Proof.
  unfold has_creds, js_in. rewrite !has_key_mem.
  destruct (mem "bearerToken" (map fst enc)), (mem "username" (map fst enc));
    reflexivity.
Qed.

(** The code's test on a document agrees with the specification's. *)
Lemma inspect_accepts (sealed : jsval) :
  inspect sealed = Ok true <-> accepted_credential sealed = true.
Proof.
  unfold inspect, accepted_credential, encrypted_keys.
  destruct sealed as [| | b | n | str | l | ps]; cbn; try (split; discriminate).
  destruct (lookup "spec" ps) as [spec|]; [|cbn; split; discriminate].
  destruct spec as [| | b | n | str | l | sp]; cbn; try (split; discriminate).
  - destruct (lookup "encryptedData" sp) as [enc|]; [|cbn; split; discriminate].
    destruct enc as [| | b | n | str | l | enc]; try (cbn; split; discriminate).
    + rewrite has_creds_array. split; discriminate.
    + rewrite has_creds_object. split; congruence.
Qed.

Lemma accepted_is_truthy (sealed : jsval) :
  accepted_credential sealed = true -> truthy sealed = true.
Proof. destruct sealed; cbn; (discriminate || reflexivity). Qed.

Lemma inspect_total (sealed : jsval) :
  has_encrypted_data sealed = true -> exists b, inspect sealed = Ok b.
Proof.
  unfold has_encrypted_data, inspect.
  destruct (get_prop sealed "spec") as [spec|e]; [|discriminate].
  destruct (get_prop spec "encryptedData") as [enc|e]; [|discriminate].
  destruct enc as [| | b | n | str | l | enc]; try discriminate; intros _.
  - rewrite has_creds_array. now eexists.
  - rewrite has_creds_object. now eexists.
Qed.

(** *** The loop as a whole *)

Section Loop.

Variables (this : EdgeDeploy) (s : extstate) (co : checkout).

(** The loop answers [true] exactly when every name has an accepted secret. *)
Lemma check_secrets_true (secrets : list jsval) :
  fst (check_secrets co secrets this s) = Ok true <->
  (forall sname, In sname secrets ->
     exists sealed, co_read_manifest (fplus this) s co FLUX_NS "SealedSecret" sname = Ok sealed /\ accepted_credential sealed = true).
Proof.
  induction secrets as [|sname rest IH].
  - cbn. split; [intros _ x []|reflexivity].
  - rewrite check_secrets_cons. cbv zeta.
    destruct (co_read_manifest (fplus this) s co FLUX_NS "SealedSecret" sname)
      as [sealed|e] eqn:Hread.
    + destruct (truthy sealed) eqn:Htruthy.
      * destruct (inspect sealed) as [[|]|e] eqn:Hins.
        -- destruct (check_secrets co rest this s) as [r t]. cbn [fst] in *.
           rewrite IH. split.
           ++ intros H x [<-|Hx]; [|now apply H].
              exists sealed. split; [assumption|]. now apply inspect_accepts.
           ++ intros H x Hx. apply H. now right.
        -- cbn. split; [discriminate|]. intros H.
           destruct (H sname (or_introl eq_refl)) as [sealed' [Hr Ha]].
           rewrite Hread in Hr. injection Hr as <-.
           apply inspect_accepts in Ha. congruence.
        -- cbn. split; [discriminate|]. intros H.
           destruct (H sname (or_introl eq_refl)) as [sealed' [Hr Ha]].
           rewrite Hread in Hr. injection Hr as <-.
           apply inspect_accepts in Ha. congruence.
      * cbn. split; [discriminate|]. intros H.
        destruct (H sname (or_introl eq_refl)) as [sealed' [Hr Ha]].
        rewrite Hread in Hr. injection Hr as <-.
        apply accepted_is_truthy in Ha. congruence.
    + cbn. split; [discriminate|]. intros H.
      destruct (H sname (or_introl eq_refl)) as [sealed' [Hr _]].
      rewrite Hread in Hr. discriminate.
Qed.

(** The loop answers with a boolean when every named secret can be read and
    is either absent or carries an object of encrypted data. *)
Lemma check_secrets_total (secrets : list jsval) :
  (forall sname, In sname secrets ->
     exists sealed, co_read_manifest (fplus this) s co FLUX_NS "SealedSecret" sname = Ok sealed
                    /\ (truthy sealed = false \/ has_encrypted_data sealed = true)) ->
  exists b, fst (check_secrets co secrets this s) = Ok b.
Proof.
  induction secrets as [|sname rest IH]; intros H.
  - now exists true.
  - rewrite check_secrets_cons. cbv zeta.
    destruct (H sname (or_introl eq_refl)) as [sealed [Hread Hshape]].
    rewrite Hread.
    destruct (truthy sealed) eqn:Htruthy; [|now exists false].
    destruct Hshape as [Hf|Henc]; [discriminate|].
    destruct (inspect_total sealed Henc) as [b Hb]. rewrite Hb.
    destruct b; [|now exists false].
    destruct IH as [b Hb']; [intros x Hx; apply H; now right|].
    destruct (check_secrets co rest this s) as [r t]. now exists b.
Qed.

(** What [Promise.all] makes of the manifest reads. *)
Lemma read_refs_outcome (repos : list (string * string * string)) :
  fst (promise_all (map (read_secret_ref co) repos) this s)
  = all_ok (map (ref_of this s co) repos).
Proof.
  induction repos as [|[[ns kind] name] repos IH]; [reflexivity|].
  cbn [map promise_all all_ok].
  unfold read_secret_ref at 1. unfold bind, read_manifest, call, lift, ref_of at 1.
  destruct (co_read_manifest (fplus this) s co ns kind (JStr name)) as [gitr|e].
  - cbn.
    destruct (promise_all (map (read_secret_ref co) repos) this s) as [rs ts].
    cbn [fst] in *. rewrite <- IH.
    destruct (secret_ref_name gitr), rs; reflexivity.
  - cbn.
    destruct (promise_all (map (read_secret_ref co) repos) this s) as [rs ts].
    reflexivity.
Qed.

End Loop.

Lemma all_ok_in {A} (rs : list (result A)) (l : list A) (x : A) :
  all_ok rs = Ok l -> (In x l <-> In (Ok x) rs).
Proof.
  revert l. induction rs as [|r rs IH]; intros l H; cbn in H.
  - injection H as <-. reflexivity.
  - destruct r as [a|e]; [|discriminate].
    destruct (all_ok rs) as [l'|e]; [|discriminate].
    injection H as <-. cbn. rewrite (IH l' eq_refl).
    split; (intros [H|H]; [left; congruence|now right]).
Qed.

Lemma all_ok_total {A} (rs : list (result A)) :
  (forall r, In r rs -> exists x, r = Ok x) -> exists l, all_ok rs = Ok l.
Proof.
  induction rs as [|r rs IH]; intros H; [now exists []|].
  destruct (H r (or_introl eq_refl)) as [x ->].
  destruct IH as [l Hl]; [intros r' Hr'; apply H; now right|].
  cbn. rewrite Hl. now eexists.
Qed.

Lemma secret_ref_name_total (doc : jsval) :
  nullish doc = false -> exists sname, secret_ref_name doc = Ok sname.
Proof.
  unfold secret_ref_name. destruct doc; cbn; try discriminate; intros _; now eexists.
Qed.

Section Readiness.

Variables (this : EdgeDeploy) (s : extstate) (co : checkout).
Variable repos : list (string * string * string).

(** The scan, given what the listing returns. *)
Lemma scan_outcome :
  co_list_manifests (fplus this) s co FLUX_NS "GitRepository" = Ok repos ->
  fst (cluster_has_git_creds co this s) =
  match all_ok (map (ref_of this s co) repos) with
  | Ok names => fst (check_secrets co (filter (fun i => negb (nullish i)) names) this s)
  | Err e => Err e
  end.
Proof.
  intros Hlist. unfold cluster_has_git_creds.
  unfold bind at 1. unfold list_manifests, call. rewrite Hlist.
  change (advance s [EvListManifests co FLUX_NS "GitRepository"]) with s.
  unfold bind.
  pose proof (read_refs_outcome this s co repos) as Hrefs.
  assert (Hstate : advance s (snd (promise_all (map (read_secret_ref co) repos) this s)) = s).
  { apply reads_keep_state. apply emits_promise_all. intros p Hp.
    apply in_map_iff in Hp. destruct Hp as [mani [<- _]].
    apply emits_read_secret_ref. reflexivity. }
  destruct (promise_all (map (read_secret_ref co) repos) this s) as [r t].
  cbn [fst snd] in *. rewrite <- Hrefs.
  destruct r as [names|e]; [|reflexivity].
  rewrite Hstate.
  destruct (check_secrets co (filter (fun i => negb (nullish i)) names) this s).
  reflexivity.
Qed.

Hypothesis Hlists : lists_manifests this s co repos.

Lemma listed_refs_total :
  exists names, all_ok (map (ref_of this s co) repos) = Ok names.
Proof using Hlists.
  apply all_ok_total. intros r Hr. apply in_map_iff in Hr.
  destruct Hr as [[[ns kind] name] [<- Hin]].
  destruct Hlists as [_ Hdocs].
  destruct (Hdocs ns kind name Hin) as [doc [Hread Hdoc]].
  unfold ref_of. rewrite Hread. now apply secret_ref_name_total.
Qed.

(** The names the loop runs over are the referenced ones. *)
Lemma scanned_names (names : list jsval) (sname : jsval) :
  all_ok (map (ref_of this s co) repos) = Ok names ->
  (In sname (filter (fun i => negb (nullish i)) names) <-> referenced this s co repos sname).
Proof.
  intros Hnames. rewrite filter_In, (all_ok_in _ _ _ Hnames), in_map_iff.
  unfold referenced. split.
  - intros [[[[ns kind] name] [Href Hin]] Hnn].
    unfold ref_of in Href.
    destruct (co_read_manifest (fplus this) s co ns kind (JStr name)) as [doc|e] eqn:Hread;
      [|discriminate].
    exists ns, kind, name, doc. repeat split; try assumption.
    now apply negb_true_iff in Hnn.
  - intros (ns & kind & name & doc & Hin & Hread & Href & Hnn). split.
    + exists (ns, kind, name). split; [|assumption].
      unfold ref_of. now rewrite Hread.
    + now apply negb_true_iff.
Qed.

(** The scan answers [true] exactly when every referenced secret is there
    with an accepted credential. *)
Lemma scan_true :
  fst (cluster_has_git_creds co this s) = Ok true <->
  (forall sname, referenced this s co repos sname ->
     exists sealed,
       co_read_manifest (fplus this) s co FLUX_NS "SealedSecret" sname = Ok sealed
       /\ accepted_credential sealed = true).
Proof using Hlists.
  destruct listed_refs_total as [names Hnames].
  rewrite (scan_outcome (proj1 Hlists)), Hnames, check_secrets_true.
  split; intros H sname Hs; apply H; now apply (scanned_names names sname Hnames).
Qed.

(** The scan answers with a boolean when every referenced secret can be read
    and is either absent or carries an object of encrypted data. *)
Lemma scan_total :
  (forall sname, referenced this s co repos sname ->
     exists sealed,
       co_read_manifest (fplus this) s co FLUX_NS "SealedSecret" sname = Ok sealed
       /\ (truthy sealed = false \/ has_encrypted_data sealed = true)) ->
  exists b, fst (cluster_has_git_creds co this s) = Ok b.
Proof using Hlists.
  intros H. destruct listed_refs_total as [names Hnames].
  rewrite (scan_outcome (proj1 Hlists)), Hnames.
  apply check_secrets_total. intros sname Hs. apply H.
  now apply (scanned_names names sname Hnames).
Qed.

End Readiness.

(** *** cluster_status around the scan *)

(** Once the scan is reached, the handler's outcome and calls are those of the
    scan, framed by the three calls that lead to it and by the disposal that
    follows a scan that returned. *)
Lemma status_outcome (this : EdgeDeploy) (s : extstate) (req : request) (co : checkout) :
  reaches_scan this s req co ->
  exists pre,
    forallb (fun e => negb (is_dispose co e)) pre = true
    /\ cluster_status req this s =
       let scan := cluster_has_git_creds co this s in
       match fst scan with
       | Ok ready =>
           (match co_dispose (fplus this) s co with
            | Ok _ => Ok (ready_response ready)
            | Err e => Err e
            end, pre ++ snd scan ++ [EvDispose co])%list
       | Err e => (Err e, (pre ++ snd scan)%list)
       end.
Proof.
  intros [Hacl (info & flux & Hinfo & Htruthy & Hflux & Hclone)].
  exists [EvCheckAcl (req_auth req) (Edge_Perm_Clusters (uuids this)) (param req "cluster") true;
          EvGetConfig (Edge_App_Cluster (uuids this)) (param req "cluster");
          EvCheckoutClone flux].
  split; [reflexivity|].
  unfold cluster_status, bind, ask, check_acl, get_config, clone, dispose, call, lift, ret.
  cbn -[cluster_has_git_creds]. rewrite Hacl. cbn -[cluster_has_git_creds].
  rewrite Hinfo. cbn -[cluster_has_git_creds]. rewrite Htruthy.
  cbn -[cluster_has_git_creds]. rewrite Hflux. cbn -[cluster_has_git_creds].
  rewrite Hclone. cbn -[cluster_has_git_creds].
  pose proof (reads_keep_state (cluster_has_git_creds co) this s (scan_reads co)) as Hstate.
  destruct (cluster_has_git_creds co this s) as [[ready|e] t]; cbn [fst snd] in *;
    [|reflexivity].
  rewrite Hstate.
  destruct (co_dispose (fplus this) s co); reflexivity.
Qed.

Lemma reads_have_no_writes (t : list event) :
  forallb is_read t = true -> writes t = [].
Proof.
  induction t as [|e t IH]; [reflexivity|]. cbn. unfold is_read at 1.
  destruct (is_write e); cbn; [discriminate|exact IH].
Qed.

Lemma disposals_app (co : checkout) (t1 t2 : list event) :
  disposals co (t1 ++ t2) = (disposals co t1 + disposals co t2)%nat.
Proof. unfold disposals. now rewrite filter_app, length_app. Qed.

Lemma disposals_none (co : checkout) (t : list event) :
  forallb (fun e => negb (is_dispose co e)) t = true -> disposals co t = 0%nat.
Proof.
  unfold disposals. induction t as [|e t IH]; [reflexivity|]. cbn.
  destruct (is_dispose co e); cbn; [discriminate|exact IH].
Qed.

(** ** Readiness verification: the theorems *)

(** C1.  When a status request reaches the scan of a checkout that lists its
    GitRepository manifests of the flux-system namespace, [cluster_status]
    answers [ready = true] if and only if every secret name referenced by
    such a manifest ([spec.secretRef.name], when specified) is that of a
    SealedSecret of flux-system whose [spec.encryptedData] key set contains
    [bearerToken], or both [username] and [password].  Manifests without a
    secret reference do not count: when no manifest references a secret, and
    in particular when there is no manifest, the answer is [ready = true]. *)
Theorem cluster_status_ready_iff
  (this : EdgeDeploy) (s : extstate) (req : request) (co : checkout)
  (repos : list (string * string * string)) :
  reaches_scan this s req co ->
  co_dispose (fplus this) s co = Ok tt ->
  lists_manifests this s co repos ->
  (fst (cluster_status req this s) = Ok (ready_response true) <->
   (forall sname, referenced this s co repos sname ->
      exists sealed,
        co_read_manifest (fplus this) s co FLUX_NS "SealedSecret" sname = Ok sealed
        /\ accepted_credential sealed = true))
  /\ ((forall sname, ~ referenced this s co repos sname) ->
      fst (cluster_status req this s) = Ok (ready_response true))
  /\ (repos = [] -> fst (cluster_status req this s) = Ok (ready_response true)).
Proof.
  intros Hreach Hdispose Hlists.
  destruct (status_outcome this s req co Hreach) as [pre [_ Hstatus]].
  pose proof (scan_true this s co repos Hlists) as Hscan.
  assert (Hiff : fst (cluster_status req this s) = Ok (ready_response true) <->
                 fst (cluster_has_git_creds co this s) = Ok true).
  { rewrite Hstatus. cbv zeta.
    destruct (fst (cluster_has_git_creds co this s)) as [ready|e]; cbn [fst].
    - rewrite Hdispose. unfold ready_response, status_json.
      split; intros H; [|congruence]. destruct ready; [reflexivity|discriminate].
    - split; discriminate. }
  split; [|split].
  - now rewrite Hiff.
  - intros Hnone. apply Hiff, Hscan. intros sname Href. now destruct (Hnone sname).
  - intros ->. apply Hiff, Hscan.
    intros sname (ns & kind & name & doc & [] & _).
Qed.

(** C4, as the code has it.  When every referenced SealedSecret can be read
    and is either absent or carries an object as [spec.encryptedData], the
    status request is answered with a boolean and nothing is thrown; the
    boolean is [false] as soon as one referenced secret is absent or lacks the
    accepted keys. *)
Theorem cluster_status_answers_on_shaped_secrets
  (this : EdgeDeploy) (s : extstate) (req : request) (co : checkout)
  (repos : list (string * string * string)) :
  reaches_scan this s req co ->
  co_dispose (fplus this) s co = Ok tt ->
  lists_manifests this s co repos ->
  (forall sname, referenced this s co repos sname ->
     exists sealed,
       co_read_manifest (fplus this) s co FLUX_NS "SealedSecret" sname = Ok sealed
       /\ (truthy sealed = false \/ has_encrypted_data sealed = true)) ->
  exists ready,
    fst (cluster_status req this s) = Ok (ready_response ready)
    /\ ((exists sname sealed,
           referenced this s co repos sname
           /\ co_read_manifest (fplus this) s co FLUX_NS "SealedSecret" sname = Ok sealed
           /\ accepted_credential sealed = false) ->
        ready = false).
Proof.
  intros Hreach Hdispose Hlists Hshaped.
  destruct (status_outcome this s req co Hreach) as [pre [_ Hstatus]].
  destruct (scan_total this s co repos Hlists Hshaped) as [ready Hready].
  exists ready. split.
  - rewrite Hstatus. cbv zeta. rewrite Hready. cbn [fst]. now rewrite Hdispose.
  - intros (sname & sealed & Href & Hread & Hbad).
    destruct ready; [|reflexivity].
    pose proof (proj1 (scan_true this s co repos Hlists) Hready) as Hall.
    destruct (Hall sname Href) as [sealed' [Hread' Hgood]].
    congruence.
Qed.

(** C5, as the code has it.  A status request that acquires the checkout [co]
    disposes of it exactly once, as its last call, when the scan returns, and
    not at all when the scan throws. *)
Theorem checkout_disposed_when_scan_returns
  (this : EdgeDeploy) (s : extstate) (req : request) (co : checkout) :
  reaches_scan this s req co ->
  match fst (cluster_has_git_creds co this s) with
  | Ok _ =>
      disposals co (snd (cluster_status req this s)) = 1%nat
      /\ exists before,
           snd (cluster_status req this s) = (before ++ [EvDispose co])%list
  | Err _ => disposals co (snd (cluster_status req this s)) = 0%nat
  end.
Proof.
  intros Hreach.
  destruct (status_outcome this s req co Hreach) as [pre [Hpre Hstatus]].
  rewrite Hstatus. cbv zeta.
  pose proof (scan_keeps_checkout co co this s) as Hscan.
  destruct (fst (cluster_has_git_creds co this s)); cbn [snd];
    rewrite !disposals_app, (disposals_none co pre Hpre), (disposals_none co _ Hscan).
  - split.
    + unfold disposals. cbn. now rewrite Nat.eqb_refl.
    + exists (pre ++ snd (cluster_has_git_creds co this s))%list.
      now rewrite <- app_assoc.
  - reflexivity.
Qed.

(** C9.  A status request makes no write (to a repository, the registry or
    anything else), so it leaves the external state as it found it, and the
    same request made again right after it has the same outcome and makes
    the same calls. *)
Theorem cluster_status_is_a_pure_read
  (this : EdgeDeploy) (s : extstate) (req : request) :
  writes (snd (cluster_status req this s)) = []
  /\ advance s (snd (cluster_status req this s)) = s
  /\ cluster_status req this (advance s (snd (cluster_status req this s)))
     = cluster_status req this s.
Proof.
  pose proof (status_reads req this s) as Hreads.
  assert (Hstate : advance s (snd (cluster_status req this s)) = s)
    by now apply advance_reads.
  split; [now apply reads_have_no_writes|]. split; [exact Hstate|].
  now rewrite Hstate.
Qed.

(** ** Authorization and the sealing delegation *)

Lemma lookup_obj_set_same (k : string) (v : jsval) (props : list (string * jsval)) :
  lookup k (obj_set k v props) = Some v.
Proof.
  induction props as [|[k' v'] props IH]; cbn.
  - now rewrite String.eqb_refl.
  - destruct (k' =? k) eqn:E; cbn; rewrite E; [reflexivity|exact IH].
Qed.

Lemma lookup_obj_set_other (k k' : string) (v : jsval) (props : list (string * jsval)) :
  (k' =? k) = false -> lookup k (obj_set k' v props) = lookup k props.
Proof.
  intros Hne. induction props as [|[k0 v0] props IH]; cbn.
  - now rewrite Hne.
  - destruct (k0 =? k') eqn:E; cbn.
    + apply String.eqb_eq in E. subst k0. now rewrite Hne.
    + now rewrite IH.
Qed.

Lemma lookup_filter_other (k k' : string) (props : list (string * jsval)) :
  (k' =? k) = false ->
  lookup k (filter (fun kv => negb (fst kv =? k')) props) = lookup k props.
Proof.
  intros Hne. induction props as [|[k0 v0] props IH]; cbn; [reflexivity|].
  destruct (k0 =? k') eqn:E; cbn.
  - apply String.eqb_eq in E. subst k0. now rewrite Hne.
  - now rewrite IH.
Qed.

(** [opts.cluster] is the route parameter, for both option objects. *)
Lemma seal_opts_cluster (req : request) :
  opt_get (seal_opts req) "cluster" = param req "cluster".
Proof.
  unfold opt_get, seal_opts, param. cbn [opt_props].
  now rewrite lookup_obj_set_other, lookup_filter_other.
Qed.

Lemma delete_opts_cluster (req : request) :
  opt_get (delete_opts req) "cluster" = param req "cluster".
Proof.
  unfold opt_get, delete_opts, param. cbn [opt_props].
  now rewrite lookup_obj_set_other.
Qed.

Lemma get_prop_total (v : jsval) (k : string) :
  nullish v = false -> exists x, get_prop v k = Ok x.
Proof. destruct v; cbn; try discriminate; intros _; now eexists. Qed.

(** C3.  On each of the four endpoints, when access control answers the
    endpoint's question with "no", the response is 403 without a body and the
    access-control question is the only call made: no repository, registry,
    checkout or sealer operation.  (On POST /cluster the request must carry a
    body, or the handler throws before it asks.) *)
Theorem denied_request_gets_403
  (this : EdgeDeploy) (s : extstate) (ep : endpoint) (req : request) :
  (ep = PostCluster -> nullish (req_body req) = false) ->
  denied this s (acl_query this ep req) ->
  handler ep req this s = (Ok (status_end 403), [acl_query this ep req]).
Proof.
  intros Hbody Hdenied. destruct ep; cbn [handler acl_query denied] in *.
  - destruct (get_prop_total (req_body req) "name" (Hbody eq_refl)) as [name Hname].
    destruct (get_prop_total (req_body req) "sources" (Hbody eq_refl)) as [srcs Hsrcs].
    unfold create_cluster, bind, ask, lift, check_acl, call.
    rewrite Hname. cbn -[create_repo create_cluster_objects populate_cluster_repo].
    rewrite Hsrcs. cbn -[create_repo create_cluster_objects populate_cluster_repo].
    rewrite Hdenied. reflexivity.
  - unfold cluster_status, bind, ask, check_acl, call.
    cbn -[cluster_has_git_creds]. rewrite Hdenied. reflexivity.
  - unfold seal_secret, bind, ask, check_acl, call. cbn -[seal_opts].
    rewrite seal_opts_cluster, Hdenied. reflexivity.
  - unfold delete_sealed_secret, bind, ask, check_acl, call. cbn -[delete_opts].
    rewrite delete_opts_cluster, Hdenied. reflexivity.
Qed.

Lemma has_key_in (k : string) (props : list (string * jsval)) :
  has_key k props = true <-> In k (map fst props).
Proof.
  unfold has_key. rewrite existsb_exists, in_map_iff. split.
  - intros [kv [Hin Heq]]. apply String.eqb_eq in Heq. now exists kv.
  - intros [kv [Heq Hin]]. exists kv. split; [assumption|]. now apply String.eqb_eq.
Qed.

(** C10.  On PUT and on DELETE of a secret, when access is granted, the
    sealer is called once, with the options built from the request, and their
    [dryrun] property is [true] if and only if the query has a parameter named
    [dryrun], whatever its value; it is [false] otherwise. *)
Theorem dryrun_is_presence_of_the_parameter
  (this : EdgeDeploy) (s : extstate) (req : request) :
  Auth_check_acl (fplus this) s (req_auth req) (Edge_Perm_Secrets (uuids this))
    (param req "cluster") true = Ok true ->
  let asked := acl_query this PutSecret req in
  snd (seal_secret req this s) = [asked; EvSealSecret (seal_opts req)]
  /\ snd (delete_sealed_secret req this s) = [asked; EvDeleteSecret (delete_opts req)]
  /\ opt_get (seal_opts req) "dryrun" = JBool (dryrun_flag req)
  /\ opt_get (delete_opts req) "dryrun" = JBool (dryrun_flag req)
  /\ (dryrun_flag req = true <-> In "dryrun" (map fst (req_query req))).
Proof.
  intros Hacl asked. subst asked. cbn [acl_query].
  repeat split.
  - unfold seal_secret, bind, ask, check_acl, secrets_seal, call. cbn -[seal_opts].
    rewrite seal_opts_cluster, Hacl. cbn -[seal_opts].
    destruct (secrets_seal_secret (fplus this) s (seal_opts req)); reflexivity.
  - unfold delete_sealed_secret, bind, ask, check_acl, secrets_delete, call.
    cbn -[delete_opts]. rewrite delete_opts_cluster, Hacl. cbn -[delete_opts].
    destruct (secrets_delete_secret (fplus this) s (delete_opts req)); reflexivity.
  - unfold opt_get, seal_opts. cbn [opt_props]. now rewrite lookup_obj_set_same.
  - unfold opt_get, delete_opts. cbn [opt_props]. now rewrite lookup_obj_set_same.
  - apply has_key_in.
  - apply has_key_in.
Qed.

(** ** The provisioning saga *)

(** Case analysis on the next answer a run depends on. *)
Ltac run_step H :=
  match type of H with
  | context [match ?x with _ => _ end] =>
      lazymatch x with
      | context [match _ with _ => _ end] => fail
      | _ => destruct x eqn:?
      end
  end; cbn in H.

Ltac use_answers :=
  repeat match goal with
         | H : negb _ = false |- _ => apply negb_false_iff in H
         | H : negb _ = true |- _ => apply negb_true_iff in H
         end;
  repeat match goal with
         | H : ?x = _ |- context [?x] => rewrite H
         end.

(** Every run of [create_cluster], whatever the collaborators answer: its
    calls come in saga order, no call follows a failed one, and a run that
    answers 201 made exactly the calls of [saga_calls]. *)
Lemma create_cluster_run (this : EdgeDeploy) (s : extstate) (req : request)
  (r : result response) (t : list event) :
  create_cluster req this s = (r, t) ->
  saga_ordered t
  /\ stops_at_failure (fplus this) s t
  /\ (forall resp,
        r = Ok resp -> res_status resp = 201%Z ->
        exists name fr repo url uuid ns cert co,
          get_prop (req_body req) "name" = Ok name
          /\ fplus_fetch (fplus this) s (Git_Service_Git (uuids this)) "POST"
               ("/git/" ++ group this ++ "/" ++ to_string name) = Ok fr
          /\ fr_status fr = 200%Z
          /\ fr_json fr = Ok repo
          /\ get_prop repo "url" = Ok url
          /\ resp = status_json 201 (JObj [("uuid", uuid); ("flux", url)])
          /\ calls t = saga_calls this req name url uuid ns cert co).
Proof.
  intros Hrun.
  unfold create_cluster, create_repo, create_cluster_objects, populate_cluster_repo,
    setup_repo_links, this_write_sealed_secret in Hrun.
  unfold bind, ask, lift, log, ret, throw, check_acl, fetch, create_object, put_config,
    init_checkout, write_file, commit, push, service_url, call in Hrun.
  cbn in Hrun.
  repeat run_step Hrun.
  all: injection Hrun as <- <-.
  all: split; [reflexivity|]; split; [ cbn; use_answers; cbn; tauto | ].
  all: intros resp Hresp H201; try discriminate.
  all: injection Hresp as <-; try discriminate.
  all: use_answers.
  all: do 8 eexists; repeat split; try reflexivity; try eassumption.
  all: now apply Z.eqb_eq.
Qed.

(** C2.  Every run of [create_cluster] makes its collaborator calls in the
    order of the saga: the repository is created before the registry object
    and the Info and Cluster config entries, these before the working copy is
    initialised and committed to, and the commits before the push.  Each call
    is made only after the one before it came back successfully, so a step
    that fails is the last one.  A run that answers 201 made all of the
    calls, each once. *)
Theorem create_cluster_is_a_strict_sequence
  (this : EdgeDeploy) (s : extstate) (req : request) :
  saga_ordered (snd (create_cluster req this s))
  /\ stops_at_failure (fplus this) s (snd (create_cluster req this s))
  /\ match fst (create_cluster req this s) with
     | Ok resp =>
         if (res_status resp =? 201)%Z then
           exists name url uuid ns cert co,
             calls (snd (create_cluster req this s))
             = saga_calls this req name url uuid ns cert co
         else True
     | Err _ => True
     end.
Proof.
  destruct (create_cluster req this s) as [r t] eqn:Hrun. cbn [fst snd].
  destruct (create_cluster_run this s req r t Hrun) as (Hord & Hstop & Hdone).
  split; [exact Hord|]. split; [exact Hstop|].
  destruct r as [resp|e]; [|exact I].
  destruct (res_status resp =? 201)%Z eqn:H201; [|exact I].
  apply Z.eqb_eq in H201.
  destruct (Hdone resp eq_refl H201)
    as (name & fr & repo & url & uuid & ns & cert & co & _ & _ & _ & _ & _ & _ & Hcalls).
  now exists name, url, uuid, ns, cert, co.
Qed.

(** C6.  [create_repo] asks the Git service to create [<group>/<name>].  When
    the service answers with a status other than 200 it throws a message that
    ends with that status; when it answers 200 it returns the JSON body, the
    repository record.  In a provisioning run that answers 201, the [url] of
    that record is the [flux] of the response and of the Cluster config
    entry. *)
Theorem create_repo_outcome
  (this : EdgeDeploy) (s : extstate) (req : request) (name : jsval)
  (fr : fetch_response) :
  fplus_fetch (fplus this) s (Git_Service_Git (uuids this)) "POST"
    ("/git/" ++ group this ++ "/" ++ to_string name) = Ok fr ->
  (fr_status fr <> 200%Z ->
   fst (create_repo name this s)
   = Err (Thrown (JStr ("Git: can't create repo " ++ (group this ++ "/" ++ to_string name)
                          ++ ": " ++ string_of_Z (fr_status fr)))))
  /\ (fr_status fr = 200%Z -> fst (create_repo name this s) = fr_json fr)
  /\ (forall resp,
        get_prop (req_body req) "name" = Ok name ->
        fst (create_cluster req this s) = Ok resp ->
        res_status resp = 201%Z ->
        exists repo url uuid ns cert,
          fst (create_repo name this s) = Ok repo
          /\ get_prop repo "url" = Ok url
          /\ res_body resp = Some (JObj [("uuid", uuid); ("flux", url)])
          /\ In (EvPutConfig (Edge_App_Cluster (uuids this)) uuid
                   (JObj [("flux", url); ("namespace", ns); ("kubeseal_cert", cert)]))
                (snd (create_cluster req this s))).
Proof.
  intros Hfetch.
  assert (Hrepo : fst (create_repo name this s) =
                  if (fr_status fr =? 200)%Z then fr_json fr
                  else Err (Thrown (JStr ("Git: can't create repo "
                                            ++ (group this ++ "/" ++ to_string name)
                                            ++ ": " ++ string_of_Z (fr_status fr))))).
  { unfold create_repo, bind, ask, log, fetch, call, lift, throw. cbn.
    cbn in Hfetch. rewrite Hfetch. cbn.
    destruct (fr_status fr =? 200)%Z; cbn; [|reflexivity].
    destruct (fr_json fr); reflexivity. }
  split; [|split].
  - intros Hne. apply Z.eqb_neq in Hne. now rewrite Hrepo, Hne.
  - intros Heq. apply Z.eqb_eq in Heq. now rewrite Hrepo, Heq.
  - intros resp Hname Hresp H201.
    destruct (create_cluster req this s) as [r t] eqn:Hrun. cbn [fst snd] in *.
    destruct (create_cluster_run this s req r t Hrun) as (_ & _ & Hdone).
    destruct (Hdone resp Hresp H201)
      as (name' & fr' & repo & url & uuid & ns & cert & co
          & Hname' & Hfetch' & Hstatus & Hjson & Hurl & -> & Hcalls).
    assert (name' = name) by congruence. subst name'.
    assert (fr' = fr) by congruence. subst fr'.
    exists repo, url, uuid, ns, cert. repeat split; try assumption.
    + rewrite Hrepo. apply Z.eqb_eq in Hstatus. now rewrite Hstatus.
    + assert (Hin : In (EvPutConfig (Edge_App_Cluster (uuids this)) uuid
                          (JObj [("flux", url); ("namespace", ns); ("kubeseal_cert", cert)]))
                       (calls t)).
      { rewrite Hcalls. unfold saga_calls. cbn. tauto. }
      unfold calls in Hin. now apply filter_In in Hin.
Qed.

(** C7.  On the request [{name: "cell1", sources: ["org/repoA"],
    kubeseal_cert: "PEM..."}], with access granted and every collaborator
    succeeding, [create_cluster] throws at the call of
    [this.write_sealed_secret], right after it looked up the Git base URL: the
    sealed secret [op1flux-secrets] is not written, and neither a source
    manifest, nor the second commit, nor the push follow. *)
Theorem sealed_secret_call_throws :
  create_cluster Double.cell1_request (Double.deploy [] true 200) []
  = (Err (TypeError "this.write_sealed_secret is not a function"),
     [ EvCheckAcl (JStr "alice") "perm:clusters"
         (JStr "00000000-0000-0000-0000-000000000000") false;
       EvLog "Creating repo %s";
       EvFetch "service:git" "POST" "/git/clusters/cell1";
       EvCreateObject "class:cluster";
       EvLog "Created Edge Cluster %s";
       EvPutConfig "app:info" (JStr "uuid-1") (JObj [("name", JStr "cell1")]);
       EvPutConfig "app:cluster" (JStr "uuid-1")
         (JObj [("flux", JStr "https://git.example/git/clusters/cell1");
                ("namespace", JStr "fplus-edge");
                ("kubeseal_cert", JStr "PEM...")]);
       EvLog "Performing initial cluster deployment";
       EvCheckoutInit (JStr "https://git.example/git/clusters/cell1");
       EvWriteFile 8%nat "README.md" "# Edge cluster";
       EvCommit 8%nat "Add README.";
       EvServiceUrl "service:git" ]).
Proof. reflexivity. Qed.

(** The body of the loop over the sources, run on its own on ["org/repoA"],
    writes the GitRepository and the Kustomization named ["org.repoA"]. *)
Example add_source_alone :
  add_source 8%nat (JStr "https://git.example/") (JStr "org/repoA")
    (Double.deploy [] true 200) []
  = (Ok tt,
     [ EvLog "Adding source %s";
       EvWriteManifest 8%nat
         (manifests_git_repo (Double.collab [] true 200) FLUX_NS "org.repoA"
            "https://git.example/org/repoA");
       EvWriteManifest 8%nat
         (manifests_flux_kust (Double.collab [] true 200) FLUX_NS "org.repoA" "org.repoA") ]).
Proof. reflexivity. Qed.

(** Only the first ["/"] of a source is replaced. *)
Example replace_first_only :
  js_replace_slash (JStr "org/team/repo") = Ok "org.team/repo".
Proof. reflexivity. Qed.

(** C8.  No run of [create_cluster] writes a manifest: with no [sources]
    there is nothing to write, and with [sources] the run throws before the
    loop over them.  On the request with [sources: ["org/repoA"]] the run
    ends with that exception and no GitRepository or Kustomization named
    ["org.repoA"] is written. *)
Theorem no_source_manifest_is_written
  (this : EdgeDeploy) (s : extstate) (req : request) :
  existsb is_write_manifest (snd (create_cluster req this s)) = false
  /\ existsb is_write_manifest
       (snd (create_cluster Double.cell1_request (Double.deploy [] true 200) [])) = false
  /\ fst (create_cluster Double.cell1_request (Double.deploy [] true 200) [])
     = Err (TypeError "this.write_sealed_secret is not a function").
Proof.
  split; [|split; reflexivity].
  destruct (create_cluster req this s) as [r t] eqn:Hrun. cbn [snd].
  unfold create_cluster, create_repo, create_cluster_objects, populate_cluster_repo,
    setup_repo_links, this_write_sealed_secret in Hrun.
  unfold bind, ask, lift, log, ret, throw, check_acl, fetch, create_object, put_config,
    init_checkout, write_file, commit, push, service_url, call in Hrun.
  cbn in Hrun.
  repeat run_step Hrun.
  all: injection Hrun as <- <-; reflexivity.
Qed.

(** ** The theorems at work on concrete requests *)

Import Double.

Ltac reach_scan_here :=
  split; [reflexivity|]; do 2 eexists; repeat split; reflexivity.

(** The listing of a test checkout, and the documents read back. *)
Ltac list_here :=
  split; [reflexivity|];
  let ns := fresh "ns" in
  let kind := fresh "kind" in
  let name := fresh "name" in
  let Hin := fresh "Hin" in
  intros ns kind name Hin; cbv in Hin;
  repeat match goal with
         | H : _ \/ _ |- _ => destruct H as [H|H]
         | H : False |- _ => destruct H
         end;
  injection Hin as <- <- <-; eexists; split; reflexivity.

(** The one secret name a test checkout refers to. *)
Ltac the_reference Href sname :=
  let ns := fresh "ns" in
  let kind := fresh "kind" in
  let name := fresh "name" in
  let doc := fresh "doc" in
  let Hin := fresh "Hin" in
  let Hread := fresh "Hread" in
  let Hname := fresh "Hname" in
  let Hnn := fresh "Hnn" in
  destruct Href as (ns & kind & name & doc & Hin & Hread & Hname & Hnn);
  cbv in Hin;
  repeat match goal with
         | H : _ \/ _ |- _ => destruct H as [H|H]
         | H : False |- _ => destruct H
         end;
  injection Hin as <- <- <-;
  cbv in Hread; injection Hread as <-;
  cbv in Hname; injection Hname as <-;
  try discriminate Hnn.

(** C1 on a checkout with a source that has a bearer-token secret and a source
    without credentials: the request is answered [ready = true]. *)
Lemma cluster_status_ready_iff_witness :
  reaches_scan (deploy ready_files true 200) [] (status_request "c1") 7
  /\ lists_manifests (deploy ready_files true 200) [] 7
       (list_files ready_files FLUX_NS "GitRepository")
  /\ fst (cluster_status (status_request "c1") (deploy ready_files true 200) [])
     = Ok (ready_response true).
Proof.
  assert (Hreach : reaches_scan (deploy ready_files true 200) [] (status_request "c1") 7)
    by reach_scan_here.
  assert (Hlists : lists_manifests (deploy ready_files true 200) [] 7
                     (list_files ready_files FLUX_NS "GitRepository"))
    by list_here.
  split; [exact Hreach|]. split; [exact Hlists|].
  apply (proj1 (cluster_status_ready_iff _ _ _ _ _ Hreach eq_refl Hlists)).
  intros sname Href. the_reference Href sname.
  eexists. split; reflexivity.
Defined.

(** C4: a SealedSecret document without [spec] makes the status request throw
    instead of answering [ready = false]. *)
Lemma malformed_secret_throws :
  encrypted_keys (read_file no_spec_files FLUX_NS "SealedSecret" (JStr "s1")) = None
  /\ fst (cluster_status (status_request "c1") (deploy no_spec_files true 200) [])
     = Err (TypeError "Cannot read properties of undefined (reading 'encryptedData')")
  /\ fst (cluster_status (status_request "c1") (deploy no_spec_files true 200) [])
     <> Ok (ready_response false).
Proof. repeat split; try reflexivity. discriminate. Qed.

(** C4 as the code has it, on a checkout whose source refers to a secret that
    is not there: the answer is [ready = false]. *)
Lemma cluster_status_answers_on_shaped_secrets_witness :
  reaches_scan (deploy missing_secret_files true 200) [] (status_request "c1") 7
  /\ lists_manifests (deploy missing_secret_files true 200) [] 7
       (list_files missing_secret_files FLUX_NS "GitRepository")
  /\ exists ready,
       fst (cluster_status (status_request "c1") (deploy missing_secret_files true 200) [])
       = Ok (ready_response ready)
       /\ ((exists sname sealed,
              referenced (deploy missing_secret_files true 200) [] 7
                (list_files missing_secret_files FLUX_NS "GitRepository") sname
              /\ co_read_manifest (fplus (deploy missing_secret_files true 200)) [] 7
                   FLUX_NS "SealedSecret" sname = Ok sealed
              /\ accepted_credential sealed = false) ->
           ready = false).
Proof.
  assert (Hreach : reaches_scan (deploy missing_secret_files true 200) []
                     (status_request "c1") 7)
    by reach_scan_here.
  assert (Hlists : lists_manifests (deploy missing_secret_files true 200) [] 7
                     (list_files missing_secret_files FLUX_NS "GitRepository"))
    by list_here.
  split; [exact Hreach|]. split; [exact Hlists|].
  apply (cluster_status_answers_on_shaped_secrets _ _ _ _ _ Hreach eq_refl Hlists).
  intros sname Href. the_reference Href sname.
  eexists. split; [reflexivity|]. left. reflexivity.
Defined.

(** C5: when the scan throws (here on a SealedSecret whose [spec] has no
    [encryptedData]), the checkout that was cloned is never disposed of. *)
Lemma checkout_not_disposed_when_scan_throws :
  Checkout_clone (fplus (deploy no_data_files true 200)) []
    (JStr "https://git.example/git/c1") = Ok 7%nat
  /\ In (EvCheckoutClone (JStr "https://git.example/git/c1"))
       (snd (cluster_status (status_request "c1") (deploy no_data_files true 200) []))
  /\ fst (cluster_status (status_request "c1") (deploy no_data_files true 200) [])
     = Err (TypeError "Cannot use 'in' operator to search for 'bearerToken'")
  /\ disposals 7 (snd (cluster_status (status_request "c1") (deploy no_data_files true 200) []))
     = 0%nat.
Proof. repeat split; try reflexivity. cbv. tauto. Qed.

(** C5 as the code has it, on the checkout with the missing secret: the scan
    returns, and the checkout is disposed of once. *)
Lemma checkout_disposed_when_scan_returns_witness :
  reaches_scan (deploy missing_secret_files true 200) [] (status_request "c1") 7
  /\ disposals 7
       (snd (cluster_status (status_request "c1") (deploy missing_secret_files true 200) []))
     = 1%nat.
Proof.
  assert (Hreach : reaches_scan (deploy missing_secret_files true 200) []
                     (status_request "c1") 7)
    by reach_scan_here.
  split; [exact Hreach|].
  exact (proj1 (checkout_disposed_when_scan_returns _ _ _ _ Hreach)).
Defined.

(** C3 on POST /cluster with access denied. *)
Lemma denied_request_gets_403_witness :
  denied (deploy [] false 200) [] (acl_query (deploy [] false 200) PostCluster cell1_request)
  /\ handler PostCluster cell1_request (deploy [] false 200) []
     = (Ok (status_end 403),
        [acl_query (deploy [] false 200) PostCluster cell1_request]).
Proof.
  split; [reflexivity|].
  apply (denied_request_gets_403 (deploy [] false 200) [] PostCluster cell1_request).
  - intros _. reflexivity.
  - reflexivity.
Defined.

(** C10 on [?dryrun=false]: the sealer is asked for a dry run. *)
Lemma dryrun_is_presence_of_the_parameter_witness :
  opt_get (seal_opts (secret_request [("dryrun", JStr "false")])) "dryrun" = JBool true
  /\ opt_get (delete_opts (secret_request [("dryrun", JStr "false")])) "dryrun" = JBool true
  /\ snd (seal_secret (secret_request [("dryrun", JStr "false")]) (deploy [] true 200) [])
     = [acl_query (deploy [] true 200) PutSecret (secret_request [("dryrun", JStr "false")]);
        EvSealSecret (seal_opts (secret_request [("dryrun", JStr "false")]))].
Proof.
  pose proof (dryrun_is_presence_of_the_parameter (deploy [] true 200) []
                (secret_request [("dryrun", JStr "false")]) eq_refl) as H.
  cbv zeta in H. destruct H as (Hseal & _ & Hs & Hd & _).
  split; [exact Hs|]. split; [exact Hd|]. exact Hseal.
Defined.

(** C6 on a Git service that answers 404. *)
Lemma create_repo_outcome_witness :
  fst (create_repo (JStr "cell1") (deploy [] true 404) [])
  = Err (Thrown (JStr "Git: can't create repo clusters/cell1: 404")).
Proof.
  refine (proj1 (create_repo_outcome (deploy [] true 404) [] cell1_request (JStr "cell1")
                   {| fr_status := 404;
                      fr_json := Ok (JObj [("path", JStr "/git/clusters/cell1");
                                           ("url", JStr "https://git.example/git/clusters/cell1")]) |}
                   eq_refl) _).
  discriminate.
Defined.

(** The boundary cases of the readiness check. *)
Example ready_without_manifests :
  fst (cluster_status (status_request "c1") (deploy [] true 200) [])
  = Ok (ready_response true).
Proof. reflexivity. Qed.

Example ready_without_secret_ref :
  fst (cluster_status (status_request "c1") (deploy [git_repository "a" None] true 200) [])
  = Ok (ready_response true).
Proof. reflexivity. Qed.

Example not_ready_with_missing_secret :
  fst (cluster_status (status_request "c1") (deploy missing_secret_files true 200) [])
  = Ok (ready_response false).
Proof. reflexivity. Qed.

Example not_ready_with_username_alone :
  fst (cluster_status (status_request "c1")
         (deploy [git_repository "a" (Some "s1"); sealed_secret "s1" (encrypted ["username"])]
            true 200) [])
  = Ok (ready_response false).
Proof. reflexivity. Qed.

Example ready_with_username_and_password :
  fst (cluster_status (status_request "c1")
         (deploy [git_repository "a" (Some "s1");
                  sealed_secret "s1" (encrypted ["username"; "password"])]
            true 200) [])
  = Ok (ready_response true).
Proof. reflexivity. Qed.

(** The route table sends each of the four routes to its endpoint. *)
Example routes :
  route "POST" ["cluster"] = Some (PostCluster, [])
  /\ route "GET" ["cluster"; "c1"; "status"] = Some (GetClusterStatus, [("cluster", "c1")])
  /\ option_map fst (route "PUT" ["cluster"; "c1"; "secret"; "ns"; "n"; "k"]) = Some PutSecret
  /\ option_map fst (route "DELETE" ["cluster"; "c1"; "secret"; "ns"; "n"; "k"])
     = Some DeleteSecret.
Proof. repeat split. Qed.

(** A successful provisioning run: the request without sources. *)
Example provisioning_without_sources :
  fst (create_cluster (cluster_request []) (deploy [] true 200) [])
  = Ok (status_json 201
          (JObj [("uuid", JStr "uuid-1");
                 ("flux", JStr "https://git.example/git/clusters/cell1")])).
Proof. reflexivity. Qed.

(** ** Further properties of the handlers *)

Import More.

(** X1.  A status request that is allowed, for a cluster whose Cluster config
    entry is absent (or any falsy value), is answered 404 after the access
    check and the lookup: no checkout is cloned and nothing else is called. *)
Theorem status_without_config_is_404
  (this : EdgeDeploy) (s : extstate) (req : request) (info : jsval) :
  Auth_check_acl (fplus this) s (req_auth req) (Edge_Perm_Clusters (uuids this))
    (param req "cluster") true = Ok true ->
  ConfigDB_get_config (fplus this) s (Edge_App_Cluster (uuids this))
    (param req "cluster") = Ok info ->
  truthy info = false ->
  cluster_status req this s
  = (Ok (status_end 404),
     [ acl_query this GetClusterStatus req;
       EvGetConfig (Edge_App_Cluster (uuids this)) (param req "cluster") ]).
Proof.
  intros Hacl Hinfo Hfalsy.
  unfold cluster_status, bind, ask, check_acl, get_config, call.
  cbn -[cluster_has_git_creds]. rewrite Hacl. cbn -[cluster_has_git_creds].
  rewrite Hinfo. cbn -[cluster_has_git_creds]. rewrite Hfalsy. reflexivity.
Qed.

Lemma status_without_config_is_404_witness :
  cluster_status (status_request "c9") no_config []
  = (Ok (status_end 404),
     [ acl_query no_config GetClusterStatus (status_request "c9");
       EvGetConfig "app:cluster" (JStr "c9") ]).
Proof.
  exact (status_without_config_is_404 no_config [] (status_request "c9") JUndefined
           eq_refl eq_refl eq_refl).
Defined.

(** X2.  When access is granted, PUT and DELETE of a secret answer with the
    status the sealer returned, whatever it is, and without a body; an
    exception of the sealer is the outcome of the handler. *)
Theorem sealer_status_is_relayed
  (this : EdgeDeploy) (s : extstate) (req : request) :
  Auth_check_acl (fplus this) s (req_auth req) (Edge_Perm_Secrets (uuids this))
    (param req "cluster") true = Ok true ->
  fst (seal_secret req this s)
  = match secrets_seal_secret (fplus this) s (seal_opts req) with
    | Ok st => Ok (status_end st)
    | Err e => Err e
    end
  /\ fst (delete_sealed_secret req this s)
     = match secrets_delete_secret (fplus this) s (delete_opts req) with
       | Ok st => Ok (status_end st)
       | Err e => Err e
       end.
Proof.
  intros Hacl. split.
  - unfold seal_secret, bind, ask, check_acl, secrets_seal, call. cbn -[seal_opts].
    rewrite seal_opts_cluster, Hacl. cbn -[seal_opts].
    destruct (secrets_seal_secret (fplus this) s (seal_opts req)); reflexivity.
  - unfold delete_sealed_secret, bind, ask, check_acl, secrets_delete, call.
    cbn -[delete_opts]. rewrite delete_opts_cluster, Hacl. cbn -[delete_opts].
    destruct (secrets_delete_secret (fplus this) s (delete_opts req)); reflexivity.
Qed.

Lemma sealer_status_is_relayed_witness :
  fst (seal_secret (secret_request []) conflicting_sealer []) = Ok (status_end 409)
  /\ fst (delete_sealed_secret (secret_request []) conflicting_sealer [])
     = Ok (status_end 409).
Proof.
  exact (sealer_status_is_relayed conflicting_sealer [] (secret_request []) eq_refl).
Defined.

(** X3.  The options handed to the sealer carry every route parameter
    unchanged: reading any property other than [content] and [dryrun] gives
    the route parameter of that name.  The PUT options stream the request
    body as [content]; the DELETE options have no [content]. *)
Theorem sealer_options_carry_the_route_parameters (req : request) (k : string) :
  (k =? "content") = false ->
  (k =? "dryrun") = false ->
  opt_get (seal_opts req) k = param req k
  /\ opt_get (delete_opts req) k = param req k
  /\ opt_content (seal_opts req) = Some (RequestBody (req_raw req))
  /\ opt_content (delete_opts req) = None.
Proof.
  intros Hc Hd.
  assert (Hc' : ("content" =? k) = false) by now rewrite String.eqb_sym.
  assert (Hd' : ("dryrun" =? k) = false) by now rewrite String.eqb_sym.
  repeat split.
  - unfold opt_get, seal_opts, param. cbn [opt_props].
    now rewrite lookup_obj_set_other, lookup_filter_other.
  - unfold opt_get, delete_opts, param. cbn [opt_props].
    now rewrite lookup_obj_set_other.
Qed.

Lemma sealer_options_carry_the_route_parameters_witness :
  opt_get (seal_opts (secret_request [])) "namespace" = JStr "ns1"
  /\ opt_get (delete_opts (secret_request [])) "namespace" = JStr "ns1"
  /\ opt_content (seal_opts (secret_request [])) = Some (RequestBody "hunter2")
  /\ opt_content (delete_opts (secret_request [])) = None.
Proof.
  exact (sealer_options_carry_the_route_parameters (secret_request []) "namespace"
           eq_refl eq_refl).
Defined.

Lemma snd_bind {A B} (m : M A) (f : A -> M B) (this : EdgeDeploy) (s : extstate) :
  snd (bind m f this s)
  = match m this s with
    | (Ok a, t1) => (t1 ++ snd (f a this (advance s t1)))%list
    | (Err _, t1) => t1
    end.
Proof.
  unfold bind. destruct (m this s) as [[a|e] t1]; [|reflexivity].
  destruct (f a this (advance s t1)). reflexivity.
Qed.

Ltac destruct_acl_in H :=
  match type of H with
  | context [Auth_check_acl ?c ?s ?p ?perm ?t ?w] =>
      destruct (Auth_check_acl c s p perm t w)
  end.

(** X4.  Whatever the world answers, a handler calls nothing before it has
    asked access control: its calls are none at all (it threw on the request
    itself) or begin with the access-control question of its endpoint. *)
Theorem access_control_is_asked_first
  (this : EdgeDeploy) (s : extstate) (ep : endpoint) (req : request) :
  snd (handler ep req this s) = []
  \/ exists rest, snd (handler ep req this s) = acl_query this ep req :: rest.
Proof.
  remember (snd (handler ep req this s)) as t eqn:Ht.
  destruct ep; cbn [handler acl_query] in *.
  - unfold create_cluster in Ht. rewrite snd_bind in Ht. cbn [ask app] in Ht.
    rewrite snd_bind in Ht. unfold lift at 1 in Ht.
    destruct (get_prop (req_body req) "name"); [|now left]. cbn [app] in Ht.
    rewrite snd_bind in Ht. unfold lift at 1 in Ht.
    destruct (get_prop (req_body req) "sources"); [|now left]. cbn [app] in Ht.
    rewrite snd_bind in Ht. unfold check_acl at 1, call in Ht. cbv beta in Ht.
    right. destruct_acl_in Ht; subst t; eexists; reflexivity.
  - unfold cluster_status in Ht. rewrite snd_bind in Ht. cbn [ask app] in Ht.
    rewrite snd_bind in Ht. unfold check_acl at 1, call in Ht. cbv beta in Ht.
    right. destruct_acl_in Ht; subst t; eexists; reflexivity.
  - unfold seal_secret in Ht. rewrite snd_bind in Ht. cbn [ask app] in Ht.
    rewrite snd_bind in Ht. unfold check_acl at 1, call in Ht. cbv beta in Ht.
    rewrite seal_opts_cluster in Ht.
    right. destruct_acl_in Ht; subst t; eexists; reflexivity.
  - unfold delete_sealed_secret in Ht. rewrite snd_bind in Ht. cbn [ask app] in Ht.
    rewrite snd_bind in Ht. unfold check_acl at 1, call in Ht. cbv beta in Ht.
    rewrite delete_opts_cluster in Ht.
    right. destruct_acl_in Ht; subst t; eexists; reflexivity.
Qed.

Ltac unfold_saga H :=
  unfold create_cluster, create_repo, create_cluster_objects, populate_cluster_repo,
    setup_repo_links, this_write_sealed_secret in H;
  unfold bind, ask, lift, log, ret, throw, check_acl, fetch, create_object, put_config,
    init_checkout, write_file, commit, push, service_url, call in H;
  cbn in H.

(** X5.  A provisioning request whose [sources] is truthy (an array, even an
    empty one) is never answered 201: the run is answered 403 or ends with an
    exception. *)
Theorem request_with_sources_is_never_answered_201
  (this : EdgeDeploy) (s : extstate) (req : request) (sources : jsval) :
  get_prop (req_body req) "sources" = Ok sources ->
  truthy sources = true ->
  match fst (create_cluster req this s) with
  | Ok resp => resp = status_end 403
  | Err _ => True
  end.
Proof.
  intros Hsources Htruthy.
  destruct (create_cluster req this s) as [r t] eqn:Hrun. cbn [fst].
  unfold_saga Hrun. rewrite Hsources in Hrun. cbn in Hrun.
  rewrite Htruthy in Hrun. cbn in Hrun.
  repeat run_step Hrun.
  all: injection Hrun as <- <-; try exact I; reflexivity.
Qed.

Lemma request_with_sources_is_never_answered_201_witness :
  match fst (create_cluster (cluster_request [("sources", JArr [])])
               (deploy [] false 200) []) with
  | Ok resp => resp = status_end 403
  | Err _ => True
  end
  /\ match fst (create_cluster (cluster_request [("sources", JArr [])])
                  (deploy [] true 200) []) with
     | Ok resp => resp = status_end 403
     | Err _ => True
     end.
Proof.
  split.
  - exact (request_with_sources_is_never_answered_201 (deploy [] false 200) []
             (cluster_request [("sources", JArr [])]) (JArr []) eq_refl eq_refl).
  - exact (request_with_sources_is_never_answered_201 (deploy [] true 200) []
             (cluster_request [("sources", JArr [])]) (JArr []) eq_refl eq_refl).
Defined.

(** X6.  The name of a provisioning request is not checked: once access is
    granted, the repository asked of the Git service is [<group>/] followed by
    the name converted to a string, so a body without [name] asks for
    [<group>/undefined]. *)
Theorem repository_path_is_the_name_as_a_string
  (this : EdgeDeploy) (s : extstate) (req : request) (name : jsval) :
  get_prop (req_body req) "name" = Ok name ->
  Auth_check_acl (fplus this) s (req_auth req) (Edge_Perm_Clusters (uuids this))
    (JStr (UUIDs_Null (uuids this))) false = Ok true ->
  exists rest,
    snd (create_cluster req this s)
    = acl_query this PostCluster req
      :: EvLog "Creating repo %s"
      :: EvFetch (Git_Service_Git (uuids this)) "POST"
           ("/git/" ++ group this ++ "/" ++ to_string name)
      :: rest.
Proof.
  intros Hname Hacl.
  destruct (create_cluster req this s) as [r t] eqn:Hrun. cbn [snd acl_query].
  unfold_saga Hrun. rewrite Hname in Hrun. cbn in Hrun.
  assert (Hbody : nullish (req_body req) = false)
    by (destruct (req_body req); (discriminate || reflexivity)).
  destruct (get_prop_total (req_body req) "sources" Hbody) as [sources Hsources].
  rewrite Hsources in Hrun. cbn in Hrun. rewrite Hacl in Hrun. cbn in Hrun.
  repeat run_step Hrun.
  all: injection Hrun as <- <-; eexists; reflexivity.
Qed.

Lemma repository_path_is_the_name_as_a_string_witness :
  exists rest,
    snd (create_cluster
           {| req_auth := JStr "alice"; req_params := []; req_query := [];
              req_body := JObj [("kubeseal_cert", JStr "PEM...")]; req_raw := "" |}
           (deploy [] true 200) [])
    = EvCheckAcl (JStr "alice") "perm:clusters"
        (JStr "00000000-0000-0000-0000-000000000000") false
      :: EvLog "Creating repo %s"
      :: EvFetch "service:git" "POST" "/git/clusters/undefined"
      :: rest.
Proof.
  exact (repository_path_is_the_name_as_a_string (deploy [] true 200) []
           {| req_auth := JStr "alice"; req_params := []; req_query := [];
              req_body := JObj [("kubeseal_cert", JStr "PEM...")]; req_raw := "" |}
           JUndefined eq_refl eq_refl).
Defined.

(** X7.  Every registry entry [create_cluster_objects] writes is written on
    the object it has just created, and is either the Info entry [{name}] or
    the Cluster entry [{flux, namespace, kubeseal_cert}], where [flux] is the
    repository URL it was given and [namespace] is the one of the request, or
    ["fplus-edge"] when the request has none (or [null]); an empty or
    otherwise falsy namespace is kept. *)
Theorem registry_entries_of_a_cluster
  (this : EdgeDeploy) (s : extstate) (spec repo : jsval)
  (app : string) (obj value : jsval) :
  In (EvPutConfig app obj value) (snd (create_cluster_objects spec repo this s)) ->
  ConfigDB_create_object (fplus this) s (Edge_Class_Cluster (uuids this)) = Ok obj
  /\ ((app = UUIDs_App_Info (uuids this) /\ value = info_entry spec)
      \/ (app = Edge_App_Cluster (uuids this) /\ value = cluster_entry spec repo)).
Proof.
  destruct (create_cluster_objects spec repo this s) as [r t] eqn:Hrun. cbn [snd].
  unfold_saga Hrun. unfold info_entry, cluster_entry, opt_prop.
  repeat run_step Hrun.
  all: injection Hrun as <- <-; cbn; intros Hin.
  all: repeat match goal with
              | H : _ \/ _ |- _ => destruct H as [H|H]
              | H : False |- _ => destruct H
              end; try discriminate.
  all: injection Hin as <- <- <-; use_answers; split; [reflexivity|]; tauto.
Qed.

Lemma registry_entries_of_a_cluster_witness :
  ConfigDB_create_object (fplus (deploy [] true 200)) [] "class:cluster" = Ok (JStr "uuid-1")
  /\ (("app:cluster" = "app:info"
       /\ JObj [("flux", JStr "https://git.example/r"); ("namespace", JStr "");
                ("kubeseal_cert", JStr "PEM...")]
          = info_entry (JObj [("name", JStr "cell1"); ("namespace", JStr "");
                              ("kubeseal_cert", JStr "PEM...")]))
      \/ ("app:cluster" = "app:cluster"
          /\ JObj [("flux", JStr "https://git.example/r"); ("namespace", JStr "");
                   ("kubeseal_cert", JStr "PEM...")]
             = cluster_entry (JObj [("name", JStr "cell1"); ("namespace", JStr "");
                                    ("kubeseal_cert", JStr "PEM...")])
                 (JStr "https://git.example/r"))).
Proof.
  apply (registry_entries_of_a_cluster (deploy [] true 200) []
           (JObj [("name", JStr "cell1"); ("namespace", JStr "");
                  ("kubeseal_cert", JStr "PEM...")])
           (JStr "https://git.example/r")).
  cbv. tauto.
Defined.

(** X8.  The two registry writes are not rolled back or retried: when the
    object is created and the write of its Info entry fails, the exception is
    the outcome, the Cluster entry is never written, and the object stays
    behind without any config. *)
Theorem failed_info_write_leaves_a_bare_object
  (this : EdgeDeploy) (s : extstate) (spec repo uuid : jsval) (e : exn) :
  nullish spec = false ->
  ConfigDB_create_object (fplus this) s (Edge_Class_Cluster (uuids this)) = Ok uuid ->
  ConfigDB_put_config (fplus this)
    (advance s [EvCreateObject (Edge_Class_Cluster (uuids this))])
    (UUIDs_App_Info (uuids this)) uuid (info_entry spec) = Err e ->
  create_cluster_objects spec repo this s
  = (Err e,
     [ EvCreateObject (Edge_Class_Cluster (uuids this));
       EvLog "Created Edge Cluster %s";
       EvPutConfig (UUIDs_App_Info (uuids this)) uuid (info_entry spec) ]).
Proof.
  intros Hspec Hobj Hput.
  destruct (get_prop_total spec "name" Hspec) as [name Hname].
  destruct (get_prop_total spec "kubeseal_cert" Hspec) as [cert Hcert].
  destruct (get_prop_total spec "namespace" Hspec) as [ns Hns].
  unfold info_entry, opt_prop in *. rewrite Hname in *.
  unfold create_cluster_objects, bind, ask, lift, log, create_object, put_config, call.
  cbn. rewrite Hname. cbn. rewrite Hcert. cbn. rewrite Hns. cbn.
  rewrite Hobj. cbn. cbn in Hput. rewrite Hput. reflexivity.
Qed.

Lemma failed_info_write_leaves_a_bare_object_witness :
  create_cluster_objects (req_body cell1_request) (JStr "https://git.example/r")
    read_only_registry []
  = (Err (Thrown (JStr "ConfigDB: 503")),
     [ EvCreateObject "class:cluster";
       EvLog "Created Edge Cluster %s";
       EvPutConfig "app:info" (JStr "uuid-1") (JObj [("name", JStr "cell1")]) ]).
Proof.
  exact (failed_info_write_leaves_a_bare_object read_only_registry []
           (req_body cell1_request) (JStr "https://git.example/r") (JStr "uuid-1")
           (Thrown (JStr "ConfigDB: 503")) eq_refl eq_refl eq_refl).
Defined.

(** ** Further properties of the readiness scan *)

Lemma manifest_reads_all_start (this : EdgeDeploy) (s : extstate) (co : checkout)
  (repos : list (string * string * string)) :
  snd (promise_all (map (read_secret_ref co) repos) this s)
  = map (manifest_read co) repos.
Proof.
  induction repos as [|[[ns kind] name] repos IH]; [reflexivity|].
  cbn [map promise_all manifest_read].
  unfold read_secret_ref at 1. unfold bind, read_manifest, call, lift.
  destruct (co_read_manifest (fplus this) s co ns kind (JStr name)) as [gitr|e]; cbn.
  - destruct (promise_all (map (read_secret_ref co) repos) this s) as [rs ts].
    cbn [snd] in *. now rewrite IH.
  - destruct (promise_all (map (read_secret_ref co) repos) this s) as [rs ts].
    cbn [snd] in *. now rewrite IH.
Qed.

Lemma secret_loop_steps (this : EdgeDeploy) (s : extstate) (co : checkout)
  (secrets : list jsval) :
  forallb (is_secret_step co) (snd (check_secrets co secrets this s)) = true.
Proof.
  assert (Hread : forall sname, is_secret_step co (secret_read co sname) = true).
  { intros sname. cbn. now rewrite Nat.eqb_refl. }
  induction secrets as [|sname rest IH]; [reflexivity|].
  rewrite check_secrets_cons. cbv zeta. fold (secret_read co sname).
  destruct (co_read_manifest (fplus this) s co FLUX_NS "SealedSecret" sname) as [sealed|e].
  - destruct (truthy sealed).
    + destruct (inspect sealed) as [[|]|e].
      * destruct (check_secrets co rest this s) as [r t]. cbn [snd forallb] in *.
        now rewrite Hread, IH.
      * cbn [snd forallb]. now rewrite Hread.
      * cbn [snd forallb]. now rewrite Hread.
    + cbn [snd forallb]. now rewrite Hread.
  - cbn [snd forallb]. now rewrite Hread.
Qed.

(** X9.  The scan lists the GitRepository manifests of the flux namespace,
    then starts the read of every listed manifest, in listing order, whether
    or not one of these reads fails; only then does it read SealedSecrets (and
    log), and it reads none if a manifest read failed. *)
Theorem scan_reads_every_listed_manifest
  (this : EdgeDeploy) (s : extstate) (co : checkout)
  (repos : list (string * string * string)) :
  co_list_manifests (fplus this) s co FLUX_NS "GitRepository" = Ok repos ->
  exists rest,
    snd (cluster_has_git_creds co this s)
    = EvListManifests co FLUX_NS "GitRepository"
      :: (map (manifest_read co) repos ++ rest)%list
    /\ forallb (is_secret_step co) rest = true
    /\ (is_ok (all_ok (map (ref_of this s co) repos)) = false -> rest = []).
Proof.
  intros Hlist. unfold cluster_has_git_creds.
  rewrite snd_bind. unfold list_manifests at 1, call. rewrite Hlist.
  change (advance s [EvListManifests co FLUX_NS "GitRepository"]) with s.
  rewrite snd_bind.
  pose proof (read_refs_outcome this s co repos) as Hfst.
  pose proof (manifest_reads_all_start this s co repos) as Hsnd.
  destruct (promise_all (map (read_secret_ref co) repos) this s) as [[names|e] t];
    cbn [fst snd] in *; subst t.
  - eexists. split; [reflexivity|]. split.
    + apply secret_loop_steps.
    + rewrite <- Hfst. discriminate.
  - exists []. rewrite app_nil_r. repeat split.
Qed.

Lemma scan_reads_every_listed_manifest_witness :
  exists rest,
    snd (cluster_has_git_creds 7 (deploy ready_files true 200) [])
    = EvListManifests 7 FLUX_NS "GitRepository"
      :: (map (manifest_read 7) (list_files ready_files FLUX_NS "GitRepository") ++ rest)%list
    /\ forallb (is_secret_step 7) rest = true
    /\ (is_ok (all_ok (map (ref_of (deploy ready_files true 200) [] 7)
                         (list_files ready_files FLUX_NS "GitRepository"))) = false ->
        rest = []).
Proof.
  exact (scan_reads_every_listed_manifest (deploy ready_files true 200) [] 7
           (list_files ready_files FLUX_NS "GitRepository") eq_refl).
Defined.

(** X10.  The loop over the referenced secrets stops at the first secret that
    is absent or lacks the accepted keys: the answer is [false], the secrets
    before it and that one were read once each, in order, and the names after
    it are not read. *)
Theorem scan_stops_at_the_first_bad_secret
  (this : EdgeDeploy) (s : extstate) (co : checkout)
  (good : list jsval) (bad : jsval) (rest : list jsval) (sealed : jsval) :
  (forall sname, In sname good ->
     exists doc, co_read_manifest (fplus this) s co FLUX_NS "SealedSecret" sname = Ok doc
                 /\ accepted_credential doc = true) ->
  co_read_manifest (fplus this) s co FLUX_NS "SealedSecret" bad = Ok sealed ->
  accepted_credential sealed = false ->
  truthy sealed = false \/ has_encrypted_data sealed = true ->
  fst (check_secrets co (good ++ bad :: rest) this s) = Ok false
  /\ calls (snd (check_secrets co (good ++ bad :: rest) this s))
     = map (secret_read co) (good ++ [bad]).
Proof.
  intros Hgood Hread Hbad Hshape.
  induction good as [|g good IH]; cbn [app map].
  - rewrite check_secrets_cons. cbv zeta. rewrite Hread.
    destruct (truthy sealed) eqn:Htruthy; [|split; reflexivity].
    destruct Hshape as [Hf|Henc]; [discriminate|].
    destruct (inspect_total sealed Henc) as [b Hb]. rewrite Hb.
    destruct b; [|split; reflexivity].
    apply inspect_accepts in Hb. congruence.
  - rewrite check_secrets_cons. cbv zeta.
    destruct (Hgood g (or_introl eq_refl)) as [doc [Hdoc Hacc]].
    rewrite Hdoc, (accepted_is_truthy doc Hacc), (proj2 (inspect_accepts doc) Hacc).
    destruct IH as [IHr IHt]; [intros x Hx; apply Hgood; now right|].
    destruct (check_secrets co (good ++ bad :: rest) this s) as [r t].
    cbn [fst snd] in *. split; [assumption|].
    unfold calls in *. cbn. now rewrite IHt.
Qed.

Lemma scan_stops_at_the_first_bad_secret_witness :
  fst (check_secrets 7 ([JStr "s1"] ++ JStr "gone" :: [JStr "s1"; JStr "s1"])
         (deploy ready_files true 200) []) = Ok false
  /\ calls (snd (check_secrets 7 ([JStr "s1"] ++ JStr "gone" :: [JStr "s1"; JStr "s1"])
                   (deploy ready_files true 200) []))
     = map (secret_read 7) ([JStr "s1"] ++ [JStr "gone"]).
Proof.
  apply (scan_stops_at_the_first_bad_secret (deploy ready_files true 200) [] 7
           [JStr "s1"] (JStr "gone") [JStr "s1"; JStr "s1"] JUndefined).
  - intros sname [<-|[]]. eexists. split; reflexivity.
  - reflexivity.
  - reflexivity.
  - left. reflexivity.
Defined.

Lemma mem_obj_set (k k' : string) (v : jsval) (enc : list (string * jsval)) :
  mem k' (map fst enc) = true -> mem k' (map fst (obj_set k v enc)) = true.
Proof.
  unfold mem. induction enc as [|[k0 v0] enc IH]; cbn; [discriminate|].
  destruct (k0 =? k) eqn:E; cbn; [trivial|].
  destruct (k0 =? k'); cbn; [reflexivity|exact IH].
Qed.

(** X11.  The credential test looks at key names only: two [encryptedData]
    objects with the same keys get the same verdict (so a key whose value is
    empty or [null] counts), writing a property never turns an accepted
    object into a rejected one, and the test throws exactly on values that are
    neither objects nor arrays. *)
Theorem credential_test_looks_at_key_names_only :
  (forall enc1 enc2, map fst enc1 = map fst enc2 ->
     has_creds (JObj enc1) = has_creds (JObj enc2))
  /\ (forall enc k v, has_creds (JObj enc) = Ok true ->
        has_creds (JObj (obj_set k v enc)) = Ok true)
  /\ (forall enc, is_ok (has_creds enc)
                  = match enc with JObj _ | JArr _ => true | _ => false end).
Proof.
  split; [|split].
  - intros enc1 enc2 Hkeys. now rewrite !has_creds_object, Hkeys.
  - intros enc k v. rewrite !has_creds_object. intros H. injection H as H. f_equal.
    apply orb_true_iff in H. apply orb_true_iff. destruct H as [H|H].
    + left. now apply mem_obj_set.
    + right. apply andb_true_iff in H. destruct H as [Hu Hp].
      apply andb_true_iff. split; now apply mem_obj_set.
  - intros enc. destruct enc; try reflexivity.
    + now rewrite has_creds_array.
    + now rewrite has_creds_object.
Qed.

(** ** The loop over the sources, and the source names *)

(** X12.  Run on a list of sources that are strings, with a URL parser that
    resolves each of them and a checkout that accepts every manifest, the
    loop over the sources writes, for each source in order, one GitRepository
    manifest and one Kustomization manifest, both named after the source with
    its first ["/"] replaced, and nothing else. *)
Theorem every_source_gets_its_pair_of_manifests
  (this : EdgeDeploy) (co : checkout) (git_base : jsval) (url_of : string -> string)
  (sources : list string) (s : extstate) :
  (forall source, In source sources ->
     new_URL (fplus this) source git_base = Ok (url_of source)) ->
  (forall s' doc, co_write_manifest (fplus this) s' co doc = Ok tt) ->
  add_sources co git_base (map JStr sources) this s
  = (Ok tt, flat_map (fun source => source_calls this co source (url_of source)) sources).
Proof.
  intros Hurl Hwrite. revert s.
  induction sources as [|source sources IH]; intros s; [reflexivity|].
  cbn [map add_sources flat_map].
  unfold bind at 1.
  assert (Hone : forall s0, add_source co git_base (JStr source) this s0
                            = (Ok tt, source_calls this co source (url_of source))).
  { intros s0. unfold add_source, bind, ask, lift, log, write_manifest, call. cbn.
    rewrite (Hurl source (or_introl eq_refl)). cbn.
    rewrite !Hwrite. reflexivity. }
  rewrite Hone.
  rewrite IH by (intros x Hx; apply Hurl; now right).
  reflexivity.
Qed.

Lemma every_source_gets_its_pair_of_manifests_witness :
  add_sources 8 (JStr "https://git.example/") (map JStr ["org/repoA"; "org/team/repoB"])
    (deploy [] true 200) []
  = (Ok tt,
     flat_map (fun source =>
                 source_calls (deploy [] true 200) 8 source ("https://git.example/" ++ source))
       ["org/repoA"; "org/team/repoB"]).
Proof.
  apply (every_source_gets_its_pair_of_manifests (deploy [] true 200) 8
           (JStr "https://git.example/") (fun source => "https://git.example/" ++ source)
           ["org/repoA"; "org/team/repoB"] []).
  - intros source _. reflexivity.
  - intros s' doc. reflexivity.
Defined.

Lemma replace_first_absent (c : ascii) (r str : string) :
  has_char c str = false -> replace_first c r str = str.
Proof.
  induction str as [|a str IH]; cbn; [reflexivity|].
  destruct (Ascii.eqb a c); cbn; [discriminate|]. intros H. now rewrite IH.
Qed.

Lemma replace_first_at (c : ascii) (r a b : string) :
  has_char c a = false ->
  replace_first c r (a ++ String c b) = a ++ r ++ b.
Proof.
  induction a as [|x a IH]; cbn.
  - intros _. now rewrite Ascii.eqb_refl.
  - destruct (Ascii.eqb x c); cbn; [discriminate|]. intros H. now rewrite IH.
Qed.

(** X13.  The manifest name of a source: a source without ["/"] is its own
    name, and in a source with one only the first ["/"] becomes ["."]; what
    follows it is kept as it is, further slashes included. *)
Theorem only_the_first_slash_is_replaced (a : string) :
  has_char "/"%char a = false ->
  js_replace_slash (JStr a) = Ok a
  /\ forall b, js_replace_slash (JStr (a ++ "/" ++ b)) = Ok (a ++ "." ++ b).
Proof.
  intros Ha. unfold js_replace_slash. split.
  - now rewrite replace_first_absent.
  - intros b. cbn [String.append]. now rewrite replace_first_at.
Qed.

Lemma only_the_first_slash_is_replaced_witness :
  js_replace_slash (JStr "org") = Ok "org"
  /\ js_replace_slash (JStr ("org" ++ "/" ++ "team/repo")) = Ok ("org" ++ "." ++ "team/repo").
Proof.
  destruct (only_the_first_slash_is_replaced "org" eq_refl) as [H1 H2].
  split; [exact H1|exact (H2 "team/repo")].
Defined.

(** ** The Rx extension *)

Section FlattenProperties.

Variable rx_from : jsval -> Rxx.run.

(** X14.  [flatten] ignores [null] and [undefined] source values: with or
    without them the same values are emitted and the run ends the same way,
    and [rx.from] is never applied to them. *)
Theorem flatten_ignores_null_and_undefined (source : list jsval) :
  Rxx.flatten rx_from (filter (fun v => negb (nullish v)) source)
  = Rxx.flatten rx_from source.
Proof.
  unfold Rxx.flatten. induction source as [|v source IH]; [reflexivity|].
  cbn [filter]. destruct (nullish v) eqn:Hv; cbn [negb].
  - cbn [Rxx.merge_map]. unfold Rxx.project. rewrite Hv. cbn.
    rewrite IH. now destruct (Rxx.merge_map rx_from source).
  - cbn [Rxx.merge_map]. now rewrite IH.
Qed.

(** X15.  [flatten] keeps the order of the source: the run over a source
    followed by another is the run over the first followed, if it completed,
    by the run over the second; after an error nothing more is emitted. *)
Theorem flatten_runs_in_source_order (source1 source2 : list jsval) :
  Rxx.flatten rx_from (source1 ++ source2)
  = Rxx.then_run (Rxx.flatten rx_from source1) (Rxx.flatten rx_from source2).
Proof.
  unfold Rxx.flatten. induction source1 as [|v source1 IH]; cbn [app Rxx.merge_map].
  - cbn. now destruct (Rxx.merge_map rx_from source2).
  - destruct (Rxx.project rx_from v) as [items [e|]]; [reflexivity|].
    rewrite IH.
    destruct (Rxx.merge_map rx_from source1) as [out1 [e|]]; cbn; [reflexivity|].
    destruct (Rxx.merge_map rx_from source2) as [out2 err].
    now rewrite app_assoc.
Qed.

End FlattenProperties.

Example flatten_run :
  Rxx.flatten from_json [JArr [JNum 1; JNum 2]; JNull; JArr []; JUndefined; JArr [JNum 3]]
  = ([JNum 1; JNum 2; JNum 3], None).
Proof. reflexivity. Qed.

(** ** What the handlers never do *)

(** X16.  Provisioning never disposes of a working copy: whatever the world
    answers and however the run ends, the checkout opened by [Checkout.init]
    is left behind (unlike the one a status request clones). *)
Theorem provisioning_never_disposes_of_its_checkout
  (this : EdgeDeploy) (s : extstate) (req : request) (co : checkout) :
  disposals co (snd (create_cluster req this s)) = 0%nat.
Proof.
  destruct (create_cluster req this s) as [r t] eqn:Hrun. cbn [snd].
  unfold_saga Hrun.
  repeat run_step Hrun.
  all: injection Hrun as <- <-; reflexivity.
Qed.

(** X17.  The only responses of the two cluster handlers: a status request is
    answered 403 or 404 without a body, or 200 with [{ready}]; a provisioning
    request is answered 403 without a body, or 201 with [{uuid, flux}]. *)
Theorem cluster_handlers_answer_only_these
  (this : EdgeDeploy) (s : extstate) (req : request) :
  match fst (cluster_status req this s) with
  | Ok resp =>
      resp = status_end 403 \/ resp = status_end 404
      \/ exists ready, resp = ready_response ready
  | Err _ => True
  end
  /\ match fst (create_cluster req this s) with
     | Ok resp =>
         resp = status_end 403
         \/ exists uuid flux, resp = status_json 201 (JObj [("uuid", uuid); ("flux", flux)])
     | Err _ => True
     end.
Proof.
  split.
  - destruct (cluster_status req this s) as [r t] eqn:Hrun. cbn [fst].
    unfold cluster_status, bind, ask, check_acl, get_config, clone, dispose, call, lift, ret
      in Hrun.
    cbn -[cluster_has_git_creds] in Hrun.
    repeat match type of Hrun with
           | context [match ?x with _ => _ end] =>
               lazymatch x with
               | context [match _ with _ => _ end] => fail
               | _ => destruct x eqn:?
               end; cbn -[cluster_has_git_creds] in Hrun
           end.
    all: injection Hrun as <- <-; try exact I.
    all: try (left; reflexivity); try (right; left; reflexivity).
    all: right; right; eexists; reflexivity.
  - destruct (create_cluster req this s) as [r t] eqn:Hrun. cbn [fst].
    unfold_saga Hrun.
    repeat run_step Hrun.
    all: injection Hrun as <- <-; try exact I.
    all: try (left; reflexivity).
    all: right; do 2 eexists; reflexivity.
Qed.
